(** * repo_daily_reload: the sync tool and the cleanup tool

    A shallow embedding of [src/sync_repos.py] and [src/cleanup_tool.py].

    - A Python [str] is a Rocq [string] holding its UTF-8 bytes.  Substring
      search and equality on well-formed UTF-8 agree with the same
      operations on code points, and both are case-sensitive.
    - A Python dict used as a record (a project, an organization record, an
      application) is a Rocq record; a dict used as a map (the
      name-to-id mapping of [IQ.get_applications]) is a [gmap].
    - Counters are Python integers, hence [Z].
    - A call that leaves the process (a method of a remote client, or one
      HTTP request of [requests.Session]) is an event of a program tree
      [Prog]; the reply is chosen by the environment.  A run is a path
      through the tree, and the trace of a run lists the calls that were
      attempted together with what they returned.
    - A Python exception is the [Raise] case of [Res]. *)

From stdpp Require Import base option list strings gmap.
From Stdlib Require Import ZArith Lia Ascii.

Open Scope Z_scope.

(* ===================================================================== *)
(** ** Python values *)
(* ===================================================================== *)

(** The exceptions the two scripts can meet. *)
Inductive Exn : Type :=
| RequestException (msg : string)  (* requests.exceptions.RequestException *)
| HTTPError (status : Z)           (* raised by response.raise_for_status() *)
| DecodeError                      (* KeyError / TypeError / ValueError while reading a body *)
| KeyError (key : string)
| ValueError (msg : string)
| FileNotFoundError (msg : string)
| OtherException (msg : string).

(** The outcome of a Python expression: a value, or a raised exception. *)
Inductive Res (A : Type) : Type :=
| Val (a : A)
| Raise (e : Exn).
Arguments Val {A} a.
Arguments Raise {A} e.

(** Truthiness of a [str]: only the empty string is falsy. *)
Definition truthy_str (s : string) : bool :=
  match s with
  | EmptyString => false
  | String _ _ => true
  end.

(** Truthiness of a value that is [None] or a [str]. *)
Definition truthy (o : option string) : bool :=
  match o with
  | None => false
  | Some s => truthy_str s
  end.

(** [x or d] for [x] being [None] or a [str]. *)
Definition or_else (o : option string) (d : string) : string :=
  match o with
  | Some s => if truthy_str s then s else d
  | None => d
  end.

(** The [str] held by a truthy value that is [None] or a [str]. *)
Definition as_truthy (o : option string) : option string :=
  match o with
  | Some s => if truthy_str s then Some s else None
  | None => None
  end.

(** [s.startswith(p)], the prefix test the substring search is built on. *)
Fixpoint startswith (p s : string) : bool :=
  match p, s with
  | EmptyString, _ => true
  | String a p', String b s' => if decide (a = b) then startswith p' s' else false
  | String _ _, EmptyString => false
  end.

(** [needle in hay] on [str]: [needle] occurs at some position of [hay]. *)
Fixpoint str_in (needle hay : string) : bool :=
  startswith needle hay ||
  match hay with
  | EmptyString => false
  | String _ hay' => str_in needle hay'
  end.

(** [s.replace(" ", "-")] (both are single bytes in UTF-8). *)
Fixpoint replace_space_hyphen (s : string) : string :=
  match s with
  | EmptyString => EmptyString
  | String a s' =>
      String (if decide (a = " "%char) then "-"%char else a) (replace_space_hyphen s')
  end.

(** [s.rstrip("/")]: drop every trailing slash. *)
Fixpoint rstrip_slash (s : string) : string :=
  match s with
  | EmptyString => EmptyString
  | String a s' =>
      match rstrip_slash s' with
      | EmptyString => if decide (a = "/"%char) then EmptyString else String a EmptyString
      | r => String a r
      end
  end.

(* ===================================================================== *)
(** ** Programs that call out of the process *)
(* ===================================================================== *)

(** A program over the calls [E]: it returns, or it makes a call [e] whose
    reply has type [X] and goes on with the reply. *)
Inductive Prog (E : Type -> Type) (A : Type) : Type :=
| Ret (a : A)
| Vis (X : Type) (e : E X) (k : X -> Prog E A).
Arguments Ret {E A} a.
Arguments Vis {E A X} e k.

Fixpoint bind {E A B} (p : Prog E A) (f : A -> Prog E B) : Prog E B :=
  match p with
  | Ret a => f a
  | Vis e k => Vis e (fun x => bind (k x) f)
  end.

Definition call {E X} (e : E X) : Prog E X := Vis e Ret.

(** One attempted call and the reply it got. *)
Inductive Event (E : Type -> Type) : Type :=
| Ev (X : Type) (e : E X) (x : X).
Arguments Ev {E X} e x.

Definition Trace (E : Type -> Type) : Type := list (Event E).

(** [Runs p tr a]: some run of [p] makes exactly the calls of [tr], in that
    order and with those replies, and returns [a]. *)
Fixpoint Runs {E A} (p : Prog E A) (tr : Trace E) (a : A) : Prop :=
  match p with
  | Ret a' => tr = [] /\ a = a'
  | Vis e k => exists x tr', tr = Ev e x :: tr' /\ Runs (k x) tr' a
  end.

(** An environment: the reply to a call, given the calls made so far. *)
Definition Oracle (E : Type -> Type) : Type := forall X, Trace E -> E X -> X.

(** Running a program against an environment, from the history [hist];
    returns the result and the extended history. *)
Fixpoint exec {E A} (o : Oracle E) (p : Prog E A) (hist : Trace E) : A * Trace E :=
  match p with
  | Ret a => (a, hist)
  | Vis e k => let x := o _ hist e in exec o (k x) (hist ++ [Ev e x])
  end.

(** Replacing every call of [E] by a program over the calls [F]: a client
    method implemented by HTTP requests. *)
Fixpoint interp {E F A} (h : forall X, E X -> Prog F X) (p : Prog E A) : Prog F A :=
  match p with
  | Ret a => Ret a
  | Vis e k => bind (h _ e) (fun x => interp h (k x))
  end.

Declare Scope prog_scope.
Delimit Scope prog_scope with prog.
Notation "x <- p ;; k" := (bind p (fun x => k))
  (at level 100, p at next level, right associativity) : prog_scope.
(** [x <-! p ;; k]: as above, but an exception raised by [p] propagates. *)
Notation "x <-! p ;; k" :=
  (bind p (fun r => match r with Val x => k | Raise e => Ret (Raise e) end))
  (at level 100, p at next level, right associativity) : prog_scope.
Open Scope prog_scope.

(** [for x in l: s = body(s, x)], where an exception raised by the body
    leaves the loop. *)
Fixpoint for_each {E S X} (body : S -> X -> Prog E (Res S)) (l : list X) (s : S)
  : Prog E (Res S) :=
  match l with
  | [] => Ret (Val s)
  | x :: l' => s' <-! body s x ;; for_each body l' s'
  end.

(** [", ".join(l)] *)
Fixpoint join_comma (l : list string) : string :=
  match l with
  | [] => ""
  | [s] => s
  | s :: l' => s +:+ ", " +:+ join_comma l'
  end.

(** What [open(path)] followed by [json.load] finds at a path of the
    configuration directory. *)
Inductive FileContent (A : Type) : Type :=
| NoSuchFile              (* open raises FileNotFoundError *)
| InvalidJson             (* json.load raises JSONDecodeError *)
| JsonList (items : list A).
Arguments NoSuchFile {A}.
Arguments InvalidJson {A}.
Arguments JsonList {A} items.

(** One record of the organization file; a field is [None] when the key is
    absent or null, which is what [o.get(key)] returns.  The records that
    [load_organizations] keeps have both fields. *)
Record Org : Type := {
  org_id : option string;          (* o.get("id") *)
  org_chineseName : option string  (* o.get("chineseName") *)
}.

(** [org[key]] on a record read with the field [field]. *)
Definition getitem (key : string) (field : option string) : Res string :=
  match field with
  | Some v => Val v
  | None => Raise (KeyError key)
  end.

(** An application as the scan server lists it. *)
Record App : Type := { app_name : string; app_id : string }.

(** A project as the source-control host lists it; the description is
    [None] when the key is absent and [Some None] when it is null. *)
Record ProjectJson : Type := {
  pj_id : string;
  pj_name : string;
  pj_description : option (option string)
}.

(** The body of an HTTP response, read at the shape the caller expects.  A
    body of any other shape is [BodyOther]: reading it raises in the caller. *)
Inductive Body : Type :=
| BodyOther
| BodyApplications (applications : list App)  (* {"applications": [{"name":.., "id":..}, ..]} *)
| BodyId (id : string)                        (* {"id": ..} *)
| BodyProjects (value : list ProjectJson)     (* {"value": [..]}, or no "value" key: [] *)
| BodyRepos (value : list (option string)).   (* {"value": [{"remoteUrl": ..}, ..]} *)

Record Response : Type := { status_code : Z; body : Body }.

(** The JSON sent with a request. *)
Inductive Payload : Type :=
| AppData (publicId name organizationId : string)
| SourceControlData (repositoryUrl baseBranch : string)
    (remediationPullRequestsEnabled pullRequestCommentingEnabled
       sourceControlEvaluationsEnabled : bool)
| ScanData (stageId branchName : string).

(** [session.request(method, url, json=payload)]: the response, or the
    [RequestException] of a transport failure. *)
Inductive Http : Type -> Type :=
| session_request (method url : string) (json : option Payload) : Http (Res Response).

(** [response.raise_for_status()] raises for a 4xx or 5xx status. *)
Definition raise_for_status (response : Response) : Res Response :=
  if (400 <=? status_code response) && (status_code response <? 600)
  then Raise (HTTPError (status_code response))
  else Val response.

(* ===================================================================== *)
(** ** src/sync_repos.py *)
(* ===================================================================== *)

Module SyncRepos.

(** A project as [AzureDevOps.get_projects] returns it; the description is
    [None] when the host sent null. *)
Record Project : Type := {
  project_id : string;
  project_name : string;
  project_description : option string
}.

Record Config : Type := {
  AZURE_DEVOPS_TOKEN : string;
  AZURE_DEVOPS_ORGANIZATION : string;
  IQ_SERVER_URL : string;
  IQ_USERNAME : string;
  IQ_PASSWORD : string;
  DEFAULT_BRANCH : string;
  STAGE_ID : string
}.

(** The per-organization result [{"created":.., "scanned":.., "errors":..}]. *)
Record Counters : Type := { created : Z; scanned : Z; errors : Z }.

Definition zero : Counters := {| created := 0; scanned := 0; errors := 0 |}.
Definition inc_created (c : Counters) : Counters :=
  {| created := created c + 1; scanned := scanned c; errors := errors c |}.
Definition inc_scanned (c : Counters) : Counters :=
  {| created := created c; scanned := scanned c + 1; errors := errors c |}.
Definition inc_errors (c : Counters) : Counters :=
  {| created := created c; scanned := scanned c; errors := errors c + 1 |}.
(** [for key in total: total[key] += result[key]] *)
Definition add (total result : Counters) : Counters :=
  {| created := created total + created result;
     scanned := scanned total + scanned result;
     errors := errors total + errors result |}.

Definition required_keys : list string :=
  ["AZURE_DEVOPS_TOKEN"; "AZURE_DEVOPS_ORGANIZATION"; "IQ_SERVER_URL";
   "IQ_USERNAME"; "IQ_PASSWORD"].

(** [load_config], over the process environment [getenv = os.getenv]. *)
Definition load_config (getenv : string -> option string) : Res Config :=
  let missing := List.filter (fun k => negb (truthy (getenv k))) required_keys in
  match missing with
  | [] =>
      Val {| AZURE_DEVOPS_TOKEN := default "" (getenv "AZURE_DEVOPS_TOKEN");
             AZURE_DEVOPS_ORGANIZATION := default "" (getenv "AZURE_DEVOPS_ORGANIZATION");
             IQ_SERVER_URL := default "" (getenv "IQ_SERVER_URL");
             IQ_USERNAME := default "" (getenv "IQ_USERNAME");
             IQ_PASSWORD := default "" (getenv "IQ_PASSWORD");
             DEFAULT_BRANCH := default "main" (getenv "DEFAULT_BRANCH");
             STAGE_ID := default "source" (getenv "STAGE_ID") |}
  | _ =>
      Raise (ValueError ("Missing required environment variables: " +:+ join_comma missing))
  end.

(** [load_organizations], over the module constant [DEBUG] and the files of
    the configuration directory. *)
Definition load_organizations (DEBUG : bool) (fs : string -> FileContent Org)
  : Res (list Org) :=
  let org_file := if DEBUG then "config/debug-org.json" else "config/org-azure.json" in
  match fs org_file with
  | NoSuchFile =>
      Raise (FileNotFoundError ("Organization configuration file not found: " +:+ org_file))
  | InvalidJson =>
      Raise (ValueError "Invalid JSON in organization configuration")
  | JsonList orgs =>
      let valid_orgs :=
        List.filter (fun o => truthy (org_id o) && truthy (org_chineseName o)) orgs in
      match valid_orgs with
      | [] => Raise (ValueError "No valid organizations found in configuration")
      | _ => Val valid_orgs
      end
  end.

(** The remote calls of [Sync]: the methods of [self.azure_devops] and of
    [self.iq].  A client passed to [Sync] may return or raise. *)
Inductive Call : Type -> Type :=
| AzureDevOps_get_projects : Call (Res (list Project))
| AzureDevOps_get_repo_url (project_id : string) : Call (Res (option string))
| IQ_get_applications (org_id : string) : Call (Res (gmap string string))
| IQ_create_application (name repo_url branch org_id : string) : Call (Res (option string))
| IQ_scan_application (app_id branch stage_id : string) : Call (Res bool).

(** The scan-server client, over HTTP requests. *)
Module IQ.

Record t : Type := { base_url : string }.

(** [IQ(url, username, password)]; the credentials go into the session. *)
Definition __init__ (url username password : string) : t :=
  {| base_url := rstrip_slash url |}.

(** [self._request(method, endpoint, json=..)]: the exception of the
    request or of [raise_for_status] is logged and raised again. *)
Definition _request (self : t) (method endpoint : string) (json : option Payload)
  : Prog Http (Res Response) :=
  r <- call (session_request method (base_url self +:+ endpoint) json) ;;
  match r with
  | Val response => Ret (raise_for_status response)
  | Raise e => Ret (Raise e)
  end.

(** The dict comprehension [{app["name"]: app["id"] for app in ..}]: a later
    entry replaces an earlier one of the same name. *)
Definition dict_of_applications (l : list App) : gmap string string :=
  foldl (fun m app => <[app_name app := app_id app]> m) ∅ l.

Definition get_applications (self : t) (org_id : string)
  : Prog Http (Res (gmap string string)) :=
  r <- _request self "GET" ("/api/v2/applications/organization/" +:+ org_id) None ;;
  match r with
  | Val response =>
      match body response with
      | BodyApplications applications => Ret (Val (dict_of_applications applications))
      | _ => Ret (Val ∅)           (* except Exception: return {} *)
      end
  | Raise _ => Ret (Val ∅)         (* except Exception: return {} *)
  end.

Section Methods.
(** Python's [str.lower], which the scripts take from the language. *)
Variable lower : string -> string.

Definition create_application (self : t) (name repo_url branch org_id : string)
  : Prog Http (Res (option string)) :=
  let app_data :=
    AppData (replace_space_hyphen (lower name)) name org_id in
  r <- _request self "POST" "/api/v2/applications" (Some app_data) ;;
  match r with
  | Val response =>
      match body response with
      | BodyId app_id =>
          let source_control_data :=
            SourceControlData repo_url branch true true true in
          r2 <- _request self "POST" ("/api/v2/sourceControl/application/" +:+ app_id)
                  (Some source_control_data) ;;
          match r2 with
          | Val _ => Ret (Val (Some app_id))
          | Raise _ => Ret (Val None)   (* except Exception: return None *)
          end
      | _ => Ret (Val None)             (* response.json()["id"] raises *)
      end
  | Raise _ => Ret (Val None)           (* except Exception: return None *)
  end.

End Methods.

Definition scan_application (self : t) (app_id branch stage_id : string)
  : Prog Http (Res bool) :=
  let scan_data := ScanData stage_id branch in
  r <- _request self "POST"
         ("/api/v2/evaluation/applications/" +:+ app_id +:+ "/sourceControlEvaluation")
         (Some scan_data) ;;
  match r with
  | Val response => Ret (Val (status_code response =? 200))
  | Raise _ => Ret (Val false)          (* except Exception: return False *)
  end.

End IQ.

(** The source-control client, over HTTP requests. *)
Module AzureDevOps.

Record t : Type := { organization : string; base_url : string }.

(** [AzureDevOps(organization, token)]; the token goes into the session
    headers. *)
Definition __init__ (organization token : string) : t :=
  {| organization := organization;
     base_url := "https://dev.azure.com/" +:+ organization |}.

Definition _request (self : t) (method endpoint : string) (json : option Payload)
  : Prog Http (Res Response) :=
  r <- call (session_request method (base_url self +:+ endpoint) json) ;;
  match r with
  | Val response => Ret (raise_for_status response)
  | Raise e => Ret (Raise e)
  end.

Definition get_projects (self : t) : Prog Http (Res (list Project)) :=
  let endpoint := "/_apis/projects?api-version=7.1" in
  r <- _request self "GET" endpoint None ;;
  match r with
  | Val response =>
      match body response with
      | BodyProjects projects =>
          Ret (Val (map (fun project =>
                           {| project_id := pj_id project;
                              project_name := pj_name project;
                              project_description :=
                                default (Some "") (pj_description project) |})
                        projects))
      | _ => Ret (Val [])             (* except Exception: return [] *)
      end
  | Raise _ => Ret (Val [])           (* except Exception: return [] *)
  end.

Definition get_repo_url (self : t) (project_id : string)
  : Prog Http (Res (option string)) :=
  let endpoint := "/" +:+ project_id +:+ "/_apis/git/repositories?api-version=7.1" in
  r <- _request self "GET" endpoint None ;;
  match r with
  | Val response =>
      match body response with
      | BodyRepos (remoteUrl :: _) => Ret (Val remoteUrl)
      | BodyRepos [] => Ret (Val None)
      | _ => Ret (Val None)           (* except Exception: return None *)
      end
  | Raise _ => Ret (Val None)         (* except Exception: return None *)
  end.

End AzureDevOps.

Module Sync.

(** The f-string [f"權責部門：{chinese_name}"]: the tag, a full-width colon
    (U+FF1A), then the display name. *)
Definition marker (chinese_name : string) : string :=
  "權責部門：" +:+ chinese_name.

(** The filter of lines 236-240. *)
Definition matched_projects (all_projects : list Project) (chinese_name : string)
  : list Project :=
  List.filter
    (fun p => str_in (marker chinese_name) (or_else (project_description p) ""))
    all_projects.

(** Lines 278-287, inside the [try]: scan the application [app_id]. *)
Definition scan_step (config : Config) (c : Counters) (app_id : string)
  : Prog Call (Res Counters) :=
  r <- call (IQ_scan_application app_id (DEFAULT_BRANCH config) (STAGE_ID config)) ;;
  match r with
  | Val true => Ret (Val (inc_scanned c))
  | Val false => Ret (Val (inc_errors c))      (* errors += 1; continue *)
  | Raise _ => Ret (Val (inc_errors c))        (* except Exception: errors += 1 *)
  end.

(** The body of the loop over [matched_projects], lines 253-291, from the
    counters [c] to the counters after the project. *)
Definition process_project (config : Config) (org_id : string)
    (apps : gmap string string) (c : Counters) (project : Project)
  : Prog Call (Res Counters) :=
  let repo_name := project_name project in
  let default_branch := DEFAULT_BRANCH config in
  clone_url <-! call (AzureDevOps_get_repo_url (project_id project)) ;;
  match as_truthy clone_url with
  | None => Ret (Val (inc_errors c))           (* errors += 1; continue *)
  | Some clone_url =>
      match as_truthy (apps !! repo_name) with
      | Some app_id => scan_step config c app_id
      | None =>                                (* if not app_id *)
          r <- call (IQ_create_application repo_name clone_url default_branch org_id) ;;
          match r with
          | Val app_id =>
              match as_truthy app_id with
              | None => Ret (Val (inc_errors c))   (* errors += 1; continue *)
              | Some app_id => scan_step config (inc_created c) app_id
              end
          | Raise _ => Ret (Val (inc_errors c))    (* except Exception: errors += 1 *)
          end
      end
  end.

Definition sync (config : Config) (org_id chinese_name : string)
  : Prog Call (Res Counters) :=
  all_projects <-! call AzureDevOps_get_projects ;;
  let matched := matched_projects all_projects chinese_name in
  match matched with
  | [] => Ret (Val zero)
  | _ =>
      apps <-! call (IQ_get_applications org_id) ;;
      for_each (process_project config org_id apps) matched zero
  end.

End Sync.

(** One turn of the loop of [sync_repos_main], lines 324-334. *)
Definition main_step (config : Config) (total : Counters) (org : Org)
  : Prog Call (Res Counters) :=
  match getitem "chineseName" (org_chineseName org) with   (* in the log line *)
  | Raise e => Ret (Raise e)
  | Val chinese_name =>
      match getitem "id" (org_id org) with
      | Raise _ => Ret (Val (inc_errors total))            (* except Exception *)
      | Val id =>
          r <- Sync.sync config id chinese_name ;;
          match r with
          | Val result => Ret (Val (add total result))
          | Raise _ => Ret (Val (inc_errors total))        (* except Exception *)
          end
      end
  end.

(** [sync_repos_main].  The function returns nothing; the model returns
    [None] where the source returns after "Initialization failed", and
    otherwise the [total] that the overall summary reports. *)
Definition sync_repos_main (getenv : string -> option string) (DEBUG : bool)
    (fs : string -> FileContent Org) : Prog Call (Res (option Counters)) :=
  match load_config getenv with
  | Raise _ => Ret (Val None)
  | Val config =>
      match load_organizations DEBUG fs with
      | Raise _ => Ret (Val None)
      | Val orgs =>
          total <-! for_each (main_step config) orgs zero ;;
          Ret (Val (Some total))
      end
  end.

Section Http.
Variable lower : string -> string.

(** The clients that [Sync(config)] builds: every method call of [Sync]
    becomes the HTTP requests of the method. *)
Definition handler (config : Config) (X : Type) (c : Call X) : Prog Http X :=
  let azure_devops :=
    AzureDevOps.__init__ (AZURE_DEVOPS_ORGANIZATION config) (AZURE_DEVOPS_TOKEN config) in
  let iq :=
    IQ.__init__ (IQ_SERVER_URL config) (IQ_USERNAME config) (IQ_PASSWORD config) in
  match c in Call X return Prog Http X with
  | AzureDevOps_get_projects => AzureDevOps.get_projects azure_devops
  | AzureDevOps_get_repo_url project_id => AzureDevOps.get_repo_url azure_devops project_id
  | IQ_get_applications org_id => IQ.get_applications iq org_id
  | IQ_create_application name repo_url branch org_id =>
      IQ.create_application lower iq name repo_url branch org_id
  | IQ_scan_application app_id branch stage_id =>
      IQ.scan_application iq app_id branch stage_id
  end.

(** [Sync(config).sync(org_id, chinese_name)] down to its HTTP requests. *)
Definition sync_http (config : Config) (org_id chinese_name : string)
  : Prog Http (Res Counters) :=
  interp (handler config) (Sync.sync config org_id chinese_name).

End Http.

End SyncRepos.

(* ===================================================================== *)
(** ** src/cleanup_tool.py *)
(* ===================================================================== *)

Module CleanupTool.

Record Config : Type := {
  IQ_SERVER_URL : string;
  IQ_USERNAME : string;
  IQ_PASSWORD : string
}.

(** The per-organization result [{"deleted":.., "errors":..}]. *)
Record Counters : Type := { deleted : Z; errors : Z }.

Definition zero : Counters := {| deleted := 0; errors := 0 |}.
Definition inc_deleted (c : Counters) : Counters :=
  {| deleted := deleted c + 1; errors := errors c |}.
Definition inc_errors (c : Counters) : Counters :=
  {| deleted := deleted c; errors := errors c + 1 |}.
(** [for key in total: total[key] += result[key]] *)
Definition add (total result : Counters) : Counters :=
  {| deleted := deleted total + deleted result;
     errors := errors total + errors result |}.

Definition required_keys : list string :=
  ["IQ_SERVER_URL"; "IQ_USERNAME"; "IQ_PASSWORD"].

Definition load_config (getenv : string -> option string) : Res Config :=
  let missing := List.filter (fun k => negb (truthy (getenv k))) required_keys in
  match missing with
  | [] =>
      Val {| IQ_SERVER_URL := default "" (getenv "IQ_SERVER_URL");
             IQ_USERNAME := default "" (getenv "IQ_USERNAME");
             IQ_PASSWORD := default "" (getenv "IQ_PASSWORD") |}
  | _ =>
      Raise (ValueError ("Missing required environment variables: " +:+ join_comma missing))
  end.

Definition load_organizations (DEBUG : bool) (fs : string -> FileContent Org)
  : Res (list Org) :=
  let org_file := if DEBUG then "config/debug-org.json" else "config/org-azure.json" in
  match fs org_file with
  | NoSuchFile =>
      Raise (FileNotFoundError ("Organization configuration file not found: " +:+ org_file))
  | InvalidJson =>
      Raise (ValueError "Invalid JSON in organization configuration")
  | JsonList orgs =>
      let valid_orgs :=
        List.filter (fun o => truthy (org_id o) && truthy (org_chineseName o)) orgs in
      match valid_orgs with
      | [] => Raise (ValueError "No valid organizations found in configuration")
      | _ => Val valid_orgs
      end
  end.

(** The remote calls of [Cleanup]: the methods of [self.iq].  A client
    passed to [Cleanup] may return or raise. *)
Inductive Call : Type -> Type :=
| IQ_get_applications (org_id : string) : Call (Res (list App))
| IQ_delete_application (app_id : string) : Call (Res bool).

(** The scan-server client of the cleanup tool, over HTTP requests. *)
Module IQ.

Record t : Type := { base_url : string }.

Definition __init__ (url username password : string) : t :=
  {| base_url := rstrip_slash url |}.

Definition _request (self : t) (method endpoint : string) (json : option Payload)
  : Prog Http (Res Response) :=
  r <- call (session_request method (base_url self +:+ endpoint) json) ;;
  match r with
  | Val response => Ret (raise_for_status response)
  | Raise e => Ret (Raise e)
  end.

Definition get_applications (self : t) (org_id : string)
  : Prog Http (Res (list App)) :=
  r <- _request self "GET" ("/api/v2/applications/organization/" +:+ org_id) None ;;
  match r with
  | Val response =>
      match body response with
      | BodyApplications applications => Ret (Val applications)
      | _ => Ret (Val [])            (* except Exception: return [] *)
      end
  | Raise _ => Ret (Val [])          (* except Exception: return [] *)
  end.

Definition delete_application (self : t) (app_id : string) : Prog Http (Res bool) :=
  r <- _request self "DELETE" ("/api/v2/applications/" +:+ app_id) None ;;
  match r with
  | Val response => Ret (Val (status_code response =? 204))
  | Raise _ => Ret (Val false)       (* except Exception: return False *)
  end.

End IQ.

Module Cleanup.

(** The body of the loop over [apps], lines 134-143. *)
Definition delete_step (c : Counters) (app : App) : Prog Call (Res Counters) :=
  r <- call (IQ_delete_application (app_id app)) ;;
  match r with
  | Val true => Ret (Val (inc_deleted c))
  | Val false => Ret (Val (inc_errors c))
  | Raise _ => Ret (Val (inc_errors c))   (* except Exception: errors += 1 *)
  end.

Definition cleanup (config : Config) (org_id chinese_name : string)
  : Prog Call (Res Counters) :=
  apps <-! call (IQ_get_applications org_id) ;;
  match apps with
  | [] => Ret (Val zero)
  | _ => for_each delete_step apps zero
  end.

End Cleanup.

(** One turn of the loop of [cleanup_main], lines 176-188. *)
Definition main_step (config : Config) (total : Counters) (org : Org)
  : Prog Call (Res Counters) :=
  match getitem "chineseName" (org_chineseName org) with   (* in the log line *)
  | Raise e => Ret (Raise e)
  | Val chinese_name =>
      match getitem "id" (org_id org) with
      | Raise _ => Ret (Val (inc_errors total))            (* except Exception *)
      | Val id =>
          r <- Cleanup.cleanup config id chinese_name ;;
          match r with
          | Val result => Ret (Val (add total result))
          | Raise _ => Ret (Val (inc_errors total))        (* except Exception *)
          end
      end
  end.

(** [cleanup_main]; [None] where the source returns after "Initialization
    failed", otherwise the [total] of the overall summary. *)
Definition cleanup_main (getenv : string -> option string) (DEBUG : bool)
    (fs : string -> FileContent Org) : Prog Call (Res (option Counters)) :=
  match load_config getenv with
  | Raise _ => Ret (Val None)
  | Val config =>
      match load_organizations DEBUG fs with
      | Raise _ => Ret (Val None)
      | Val orgs =>
          total <-! for_each (main_step config) orgs zero ;;
          Ret (Val (Some total))
      end
  end.

(** The client that [Cleanup(config)] builds. *)
Definition handler (config : Config) (X : Type) (c : Call X) : Prog Http X :=
  let iq :=
    IQ.__init__ (IQ_SERVER_URL config) (IQ_USERNAME config) (IQ_PASSWORD config) in
  match c in Call X return Prog Http X with
  | IQ_get_applications org_id => IQ.get_applications iq org_id
  | IQ_delete_application app_id => IQ.delete_application iq app_id
  end.

End CleanupTool.

(* ===================================================================== *)
(** ** Reading traces *)
(* ===================================================================== *)

(** The runs of a loop [for_each body l s] that ends normally: one trace per
    element, and the state after the last one. *)
Inductive LoopRuns {E S X} (body : S -> X -> Prog E (Res S))
  : list X -> S -> list (Trace E) -> S -> Prop :=
| LoopRuns_nil s : LoopRuns body [] s [] s
| LoopRuns_cons x l s tr s1 trs s' :
    Runs (body s x) tr (Val s1) ->
    LoopRuns body l s1 trs s' ->
    LoopRuns body (x :: l) s (tr :: trs) s'.

(** [Handled h mtr tr]: the method calls [mtr] with their replies, each
    carried out by the program that [h] gives for it, make the requests
    [tr]. *)
Inductive Handled {E F} (h : forall X, E X -> Prog F X) : Trace E -> Trace F -> Prop :=
| Handled_nil : Handled h [] []
| Handled_cons X (e : E X) (x : X) seg mtr tr :
    Runs (h X e) seg x ->
    Handled h mtr tr ->
    Handled h (Ev e x :: mtr) (seg ++ tr).

(** Sum of a list of integers. *)
Definition sumZ (l : list Z) : Z := foldr Z.add 0 l.

(** [Val] results only. *)
Definition returned {A} (r : Res A) : bool :=
  match r with Val _ => true | Raise _ => false end.

(** A request that [_request] lets through: it returned, with a status that
    [raise_for_status] accepts. *)
Definition request_ok (r : Res Response) : bool :=
  match r with
  | Val response => returned (raise_for_status response)
  | Raise _ => false
  end.

(** The HTTP method of a request of the trace. *)
Definition http_method (ev : Event Http) : string :=
  match ev with
  | Ev e _ => match e with session_request method _ _ => method end
  end.

(** Calls to [create_application], to [scan_application] and to
    [get_repo_url] in a trace of [Sync]. *)
Definition is_create (ev : Event SyncRepos.Call) : bool :=
  match ev with
  | Ev e _ => match e with SyncRepos.IQ_create_application _ _ _ _ => true | _ => false end
  end.

Definition is_scan (ev : Event SyncRepos.Call) : bool :=
  match ev with
  | Ev e _ => match e with SyncRepos.IQ_scan_application _ _ _ => true | _ => false end
  end.

Definition repo_url_call (ev : Event SyncRepos.Call) : option string :=
  match ev with
  | Ev e _ =>
      match e with
      | SyncRepos.AzureDevOps_get_repo_url project_id => Some project_id
      | _ => None
      end
  end.

(** The project ids that [get_repo_url] was called with, in order. *)
Definition repo_url_calls (tr : Trace SyncRepos.Call) : list string :=
  omap repo_url_call tr.

(** The reply to a [get_repo_url] call. *)
Definition repo_url_reply (ev : Event SyncRepos.Call) : option (Res (option string)) :=
  match ev with
  | Ev e x =>
      match e in SyncRepos.Call X return X -> option (Res (option string)) with
      | SyncRepos.AzureDevOps_get_repo_url _ => fun x => Some x
      | _ => fun _ => None
      end x
  end.


(** In the trace [tr] of one project, the first call asked for the
    repository and the project has one: the reply is a non-empty URL. *)
Definition has_repository (tr : Trace SyncRepos.Call) : Prop :=
  exists clone_url,
    truthy_str clone_url = true /\
    head tr ≫= repo_url_reply = Some (Val (Some clone_url)).

(** In the trace [tr] of one project, the repository was asked for and a
    creation call followed. *)
Definition creation_attempted (config : SyncRepos.Config) (org_id : string)
    (p : SyncRepos.Project) (tr : Trace SyncRepos.Call) : Prop :=
  exists r_url clone_url r_create tr2,
    tr = Ev (SyncRepos.AzureDevOps_get_repo_url (SyncRepos.project_id p)) r_url
         :: Ev (SyncRepos.IQ_create_application (SyncRepos.project_name p) clone_url
                  (SyncRepos.DEFAULT_BRANCH config) org_id) r_create
         :: tr2.

(** A creation attempt failed: [create_application] raised, or returned a
    falsy value. *)
Definition create_failed (r : Res (option string)) : bool :=
  match r with
  | Val a => negb (truthy a)
  | Raise _ => true
  end.

(** The counters after a scan call that got the reply [r]. *)
Definition after_scan (c : SyncRepos.Counters) (r : Res bool) : SyncRepos.Counters :=
  match r with
  | Val true => SyncRepos.inc_scanned c
  | _ => SyncRepos.inc_errors c
  end.

(** A deletion attempt failed: [delete_application] returned false or raised. *)
Definition delete_failed (r : Res bool) : bool :=
  match r with
  | Val true => false
  | _ => true
  end.

(** The deletion calls of [cleanup], one per application and in the order
    of the listing, with the replies they got. *)
Definition delete_calls (apps : list App) (replies : list (Res bool))
  : Trace CleanupTool.Call :=
  zip_with (fun app r => Ev (CleanupTool.IQ_delete_application (app_id app)) r)
    apps replies.

(** The number of failed deletion attempts. *)
Definition failed_deletions (replies : list (Res bool)) : Z :=
  Z.of_nat (length (List.filter delete_failed replies)).

(** A record of the organization file with a non-empty id and a non-empty
    display name. *)
Definition valid_org (o : Org) : Prop :=
  exists id name,
    org_id o = Some id /\ id <> "" /\
    org_chineseName o = Some name /\ name <> "".

(** The organization file that [load_organizations] reads. *)
Definition org_file (DEBUG : bool) : string :=
  if DEBUG then "config/debug-org.json" else "config/org-azure.json".

(** What one turn of the run loop does with the outcome of the
    per-organization call. *)
Definition sync_tally (total : SyncRepos.Counters) (r : Res SyncRepos.Counters)
  : SyncRepos.Counters :=
  match r with
  | Val result => SyncRepos.add total result
  | Raise _ => SyncRepos.inc_errors total
  end.

Definition cleanup_tally (total : CleanupTool.Counters) (r : Res CleanupTool.Counters)
  : CleanupTool.Counters :=
  match r with
  | Val result => CleanupTool.add total result
  | Raise _ => CleanupTool.inc_errors total
  end.

(** The per-organization call of the run loop on the record [org]: its
    trace and its outcome. *)
Definition sync_org_run (config : SyncRepos.Config) (org : Org)
    (run : Trace SyncRepos.Call * Res SyncRepos.Counters) : Prop :=
  exists id name,
    org_id org = Some id /\ org_chineseName org = Some name /\
    Runs (SyncRepos.Sync.sync config id name) run.1 run.2.

Definition cleanup_org_run (config : CleanupTool.Config) (org : Org)
    (run : Trace CleanupTool.Call * Res CleanupTool.Counters) : Prop :=
  exists id name,
    org_id org = Some id /\ org_chineseName org = Some name /\
    Runs (CleanupTool.Cleanup.cleanup config id name) run.1 run.2.

(* ===================================================================== *)
(** ** Readings of the specification that the code does not meet *)
(* ===================================================================== *)

(** "No creation call for a project whose name is mapped to an id", read
    for every id. *)
Definition mapped_name_never_created : Prop :=
  forall config org_id (apps : gmap string string) c p app_id tr res,
    apps !! SyncRepos.project_name p = Some app_id ->
    Runs (SyncRepos.Sync.process_project config org_id apps c p) tr res ->
    Forall (fun ev => is_create ev = false) tr.

(** "A scan call is attempted for a project whose name is mapped to an id",
    read for every project. *)
Definition mapped_name_always_scanned : Prop :=
  forall config org_id (apps : gmap string string) c p app_id tr res,
    apps !! SyncRepos.project_name p = Some app_id ->
    Runs (SyncRepos.Sync.process_project config org_id apps c p) tr res ->
    Exists (fun ev => is_scan ev = true) tr.

(** "After a failed listing, creation is attempted for every matched
    project", read for every project. *)
Definition failed_listing_creates_for_all : Prop :=
  forall config org_id chinese_name all_projects tr c,
    Runs (SyncRepos.Sync.sync config org_id chinese_name)
      (Ev SyncRepos.AzureDevOps_get_projects (Val all_projects)
         :: Ev (SyncRepos.IQ_get_applications org_id) (Val ∅) :: tr) (Val c) ->
    length (List.filter is_create tr) =
    length (SyncRepos.Sync.matched_projects all_projects chinese_name).

(* ===================================================================== *)
(** ** Example inputs *)
(* ===================================================================== *)

Definition example_config : SyncRepos.Config :=
  {| SyncRepos.AZURE_DEVOPS_TOKEN := "token";
     SyncRepos.AZURE_DEVOPS_ORGANIZATION := "contoso";
     SyncRepos.IQ_SERVER_URL := "https://iq.example/";
     SyncRepos.IQ_USERNAME := "admin";
     SyncRepos.IQ_PASSWORD := "secret";
     SyncRepos.DEFAULT_BRANCH := "main";
     SyncRepos.STAGE_ID := "source" |}.

Definition project_alpha : SyncRepos.Project :=
  {| SyncRepos.project_id := "p1";
     SyncRepos.project_name := "Repo A";
     SyncRepos.project_description := Some "owner 權責部門：Alpha, since 2020" |}.

Definition project_beta : SyncRepos.Project :=
  {| SyncRepos.project_id := "p2";
     SyncRepos.project_name := "Repo B";
     SyncRepos.project_description := Some "權責部門：Beta" |}.

Definition project_undescribed : SyncRepos.Project :=
  {| SyncRepos.project_id := "p3";
     SyncRepos.project_name := "Repo C";
     SyncRepos.project_description := None |}.

Definition example_url : string := "https://dev.azure.com/contoso/_git/repo-a".

(** The scenario of the specification: one matching project without
    application; the repository resolves, creation and scan succeed. *)
Definition example_sync_trace : Trace SyncRepos.Call :=
  [ Ev SyncRepos.AzureDevOps_get_projects
      (Val [project_alpha; project_beta; project_undescribed]);
    Ev (SyncRepos.IQ_get_applications "42") (Val ∅);
    Ev (SyncRepos.AzureDevOps_get_repo_url "p1") (Val (Some example_url));
    Ev (SyncRepos.IQ_create_application "Repo A" example_url "main" "42")
      (Val (Some "app-1"));
    Ev (SyncRepos.IQ_scan_application "app-1" "main" "source") (Val true) ].

(** The application listing failed, and the matched project has no
    repository. *)
Definition no_repository_trace : Trace SyncRepos.Call :=
  [ Ev SyncRepos.AzureDevOps_get_projects (Val [project_alpha]);
    Ev (SyncRepos.IQ_get_applications "42") (Val ∅);
    Ev (SyncRepos.AzureDevOps_get_repo_url "p1") (Val None) ].

(** A listing that maps the name of [project_alpha] to an application id,
    and one that maps it to the empty id. *)
Definition apps_existing : gmap string string :=
  SyncRepos.IQ.dict_of_applications [ {| app_name := "Repo A"; app_id := "app-1" |} ].

Definition apps_empty_id : gmap string string :=
  SyncRepos.IQ.dict_of_applications [ {| app_name := "Repo A"; app_id := "" |} ].

(** Traces of the loop body on [project_alpha]: the application exists and
    is scanned; the id is empty (or the name is absent) and an application
    is created; the project has no repository. *)
Definition scan_only_trace : Trace SyncRepos.Call :=
  [ Ev (SyncRepos.AzureDevOps_get_repo_url "p1") (Val (Some example_url));
    Ev (SyncRepos.IQ_scan_application "app-1" "main" "source") (Val true) ].

Definition create_scan_trace : Trace SyncRepos.Call :=
  [ Ev (SyncRepos.AzureDevOps_get_repo_url "p1") (Val (Some example_url));
    Ev (SyncRepos.IQ_create_application "Repo A" example_url "main" "42")
      (Val (Some "app-2"));
    Ev (SyncRepos.IQ_scan_application "app-2" "main" "source") (Val true) ].

Definition no_url_trace : Trace SyncRepos.Call :=
  [ Ev (SyncRepos.AzureDevOps_get_repo_url "p1") (Val None) ].

(** The scan-server client that [Sync(example_config)] builds. *)
Definition example_iq : SyncRepos.IQ.t :=
  SyncRepos.IQ.__init__ "https://iq.example/" "admin" "secret".

(** ASCII lower-casing, standing for [str.lower] on the example names. *)
Fixpoint ascii_lower (s : string) : string :=
  match s with
  | EmptyString => EmptyString
  | String a s' =>
      let n := Ascii.nat_of_ascii a in
      String (if ((65 <=? n) && (n <=? 90))%nat then Ascii.ascii_of_nat (n + 32) else a)
        (ascii_lower s')
  end.

(** The application is created, then the source-control binding is
    refused with status 500. *)
Definition binding_fails_trace : Trace Http :=
  [ Ev (session_request "POST" "https://iq.example/api/v2/applications"
          (Some (AppData "repo-a" "Repo A" "42")))
      (Val {| status_code := 200; body := BodyId "app-1" |});
    Ev (session_request "POST"
          "https://iq.example/api/v2/sourceControl/application/app-1"
          (Some (SourceControlData example_url "main" true true true)))
      (Val {| status_code := 500; body := BodyOther |}) ].

Definition example_cleanup_config : CleanupTool.Config :=
  {| CleanupTool.IQ_SERVER_URL := "https://iq.example/";
     CleanupTool.IQ_USERNAME := "admin";
     CleanupTool.IQ_PASSWORD := "secret" |}.

Definition example_apps : list App :=
  [ {| app_name := "Repo A"; app_id := "app-1" |};
    {| app_name := "Repo B"; app_id := "app-2" |};
    {| app_name := "Repo C"; app_id := "app-3" |} ].

(** Three applications; the second deletion returns false and the third
    raises. *)
Definition example_cleanup_trace : Trace CleanupTool.Call :=
  [ Ev (CleanupTool.IQ_get_applications "42") (Val example_apps);
    Ev (CleanupTool.IQ_delete_application "app-1") (Val true);
    Ev (CleanupTool.IQ_delete_application "app-2") (Val false);
    Ev (CleanupTool.IQ_delete_application "app-3")
      (Raise (OtherException "connection reset")) ].

(** A process environment with the required settings and no optional one. *)
Definition example_env : gmap string string :=
  list_to_map
    [ ("AZURE_DEVOPS_TOKEN", "token"); ("AZURE_DEVOPS_ORGANIZATION", "contoso");
      ("IQ_SERVER_URL", "https://iq.example/"); ("IQ_USERNAME", "admin");
      ("IQ_PASSWORD", "secret") ].

Definition example_getenv (k : string) : option string := example_env !! k.

Definition org_alpha : Org := {| org_id := Some "42"; org_chineseName := Some "Alpha" |}.
Definition org_gamma : Org := {| org_id := Some "43"; org_chineseName := Some "Gamma" |}.
Definition org_nameless : Org := {| org_id := Some "44"; org_chineseName := Some "" |}.
Definition org_without_id : Org := {| org_id := None; org_chineseName := Some "Delta" |}.

Definition example_orgs : list Org := [org_alpha; org_nameless; org_gamma].

(** A configuration directory with the organization file of normal runs. *)
Definition example_fs (path : string) : FileContent Org :=
  if decide (path = "config/org-azure.json") then JsonList example_orgs else NoSuchFile.

(** A configuration directory whose organization file has no valid record. *)
Definition invalid_fs (path : string) : FileContent Org :=
  JsonList [org_nameless; org_without_id].

(** A run of the sync tool over [example_orgs]: the scenario above for
    Alpha, and no matching project for Gamma. *)
Definition example_main_trace : Trace SyncRepos.Call :=
  example_sync_trace
  ++ [ Ev SyncRepos.AzureDevOps_get_projects (Val [project_alpha; project_beta]) ].

(** Two servers: the source-control host lists two projects, one of them
    marked for Alpha and holding one repository; on the scan server the
    listing of the applications times out and every other request is
    accepted with status 200. *)
Definition example_servers : Oracle Http :=
  fun X hist e =>
    match e in Http X return X with
    | session_request method url json =>
        if decide (url = "https://dev.azure.com/contoso/_apis/projects?api-version=7.1")
        then Val {| status_code := 200;
                    body := BodyProjects
                              [ {| pj_id := "p1"; pj_name := "Repo A";
                                   pj_description := Some (Some "權責部門：Alpha") |};
                                {| pj_id := "p2"; pj_name := "Repo B";
                                   pj_description := None |} ] |}
        else if decide (url = "https://dev.azure.com/contoso/p1/_apis/git/repositories?api-version=7.1")
        then Val {| status_code := 200; body := BodyRepos [Some example_url] |}
        else if decide (url = "https://iq.example/api/v2/applications/organization/42")
        then Raise (RequestException "timed out")
        else if decide (url = "https://iq.example/api/v2/applications")
        then Val {| status_code := 200; body := BodyId "app-1" |}
        else Val {| status_code := 200; body := BodyOther |}
    end.

(** Checking that a listed trace is a run of a program on closed inputs. *)
Ltac run_trace :=
  vm_compute;
  repeat first [ reflexivity | split; [reflexivity|] | eexists ].

(* ===================================================================== *)
(** ** src/error_handler.py and the entry point of the sync tool *)
(* ===================================================================== *)

Module ErrorHandler.

(** The decorator [handle_main_execution]: the result of [func] is
    returned, and an exception of [func] is logged and raised again. *)
Definition handle_main_execution {E A} (func : Prog E (Res A)) : Prog E (Res A) :=
  r <- func ;;
  match r with
  | Val a => Ret (Val a)
  | Raise e => Ret (Raise e)       (* logger.error(..); raise *)
  end.

End ErrorHandler.

(** [run_sync_tool], the decorated entry point of [sync_repos.py]. *)
Definition run_sync_tool (getenv : string -> option string) (DEBUG : bool)
    (fs : string -> FileContent Org) : Prog SyncRepos.Call (Res (option SyncRepos.Counters)) :=
  ErrorHandler.handle_main_execution (SyncRepos.sync_repos_main getenv DEBUG fs).

(** [Cleanup(config).cleanup(org_id, chinese_name)] down to its HTTP
    requests. *)
Definition cleanup_http (config : CleanupTool.Config) (org_id chinese_name : string)
  : Prog Http (Res CleanupTool.Counters) :=
  interp (CleanupTool.handler config)
    (CleanupTool.Cleanup.cleanup config org_id chinese_name).

(* ===================================================================== *)
(** ** Reading traces, continued *)
(* ===================================================================== *)

(** The results of the calls that returned, and the number of calls that
    raised. *)
Definition returned_results {A} (l : list (Res A)) : list A :=
  omap (fun r => match r with Val a => Some a | Raise _ => None end) l.

Definition raised_count {A} (l : list (Res A)) : Z :=
  Z.of_nat (length (List.filter (fun r => negb (returned r)) l)).

(** A creation call that returned a non-empty id; a scan call that returned
    true. *)
Definition create_succeeded (ev : Event SyncRepos.Call) : bool :=
  match ev with
  | Ev e x =>
      match e in SyncRepos.Call X return X -> bool with
      | SyncRepos.IQ_create_application _ _ _ _ => fun x => negb (create_failed x)
      | _ => fun _ => false
      end x
  end.

Definition scan_succeeded (ev : Event SyncRepos.Call) : bool :=
  match ev with
  | Ev e x =>
      match e in SyncRepos.Call X return X -> bool with
      | SyncRepos.IQ_scan_application _ _ _ =>
          fun x => match x with Val true => true | _ => false end
      | _ => fun _ => false
      end x
  end.

(** The exception of a call of [Sync] that is made outside every [try]:
    listing the projects, listing the applications, asking for the
    repository. *)
Definition uncaught_raise (ev : Event SyncRepos.Call) : option Exn :=
  match ev with
  | Ev e x =>
      match e in SyncRepos.Call X return X -> option Exn with
      | SyncRepos.AzureDevOps_get_projects =>
          fun x => match x with Raise e => Some e | Val _ => None end
      | SyncRepos.AzureDevOps_get_repo_url _ =>
          fun x => match x with Raise e => Some e | Val _ => None end
      | SyncRepos.IQ_get_applications _ =>
          fun x => match x with Raise e => Some e | Val _ => None end
      | _ => fun _ => None
      end x
  end.

(** [n] slashes. *)
Fixpoint slashes (n : nat) : string :=
  match n with
  | O => ""
  | S n' => String "/"%char (slashes n')
  end.

(** A response that [delete_application] reads as a deletion: the request
    went through with status 204. *)
Definition deleted_ok (r : Res Response) : bool :=
  match r with
  | Val response => request_ok r && (status_code response =? 204)
  | Raise _ => false
  end.

(** The DELETE requests of the cleanup of the applications [apps] on the
    server at [base_url], with their replies. *)
Definition delete_requests (base_url : string) (apps : list App)
    (replies : list (Res Response)) : Trace Http :=
  zip_with
    (fun app r =>
       Ev (session_request "DELETE" (base_url +:+ "/api/v2/applications/" +:+ app_id app)
             None) r)
    apps replies.

(** The applications that the cleanup tool reads from the reply to its
    listing request: none when the request failed or the body is not a
    listing. *)
Definition listed_applications (r : Res Response) : list App :=
  match r with
  | Val response =>
      if request_ok r then
        match body response with
        | BodyApplications applications => applications
        | _ => []
        end
      else []
  | Raise _ => []
  end.

(** The number of elements of a trace, or of a list of replies, that
    satisfy a test. *)
Definition count {A} (f : A -> bool) (l : list A) : Z :=
  Z.of_nat (length (List.filter f l)).

(** The last application of a listing that has the name [name]. *)
Definition last_named (name : string) (l : list App) : option App :=
  last (List.filter (fun a => bool_decide (app_name a = name)) l).

(** The project that [get_projects] makes of a listed project. *)
Definition project_of_json (project : ProjectJson) (p : SyncRepos.Project) : Prop :=
  SyncRepos.project_id p = pj_id project /\
  SyncRepos.project_name p = pj_name project /\
  SyncRepos.project_description p =
    match pj_description project with
    | None => Some ""              (* no "description" key *)
    | Some d => d                  (* a string, or null *)
    end.

(* ===================================================================== *)
(** ** More example inputs *)
(* ===================================================================== *)

(** An environment without any setting, and one where the optional branch
    is set to the empty string. *)
Definition empty_getenv (k : string) : option string := None.

Definition blank_branch_getenv (k : string) : option string :=
  if decide (k = "DEFAULT_BRANCH") then Some "" else example_env !! k.

(** The requests of [sync_http] against [example_servers]. *)
Definition example_http_trace : Trace Http :=
  (exec example_servers
     (SyncRepos.sync_http ascii_lower example_config "42" "Alpha") []).2.

(** A cleanup of two applications over HTTP: the first deletion is
    answered 204, the second 404. *)
Definition example_cleanup_http_trace : Trace Http :=
  [ Ev (session_request "GET" "https://iq.example/api/v2/applications/organization/42"
          None)
      (Val {| status_code := 200;
              body := BodyApplications
                        [ {| app_name := "Repo A"; app_id := "app-1" |};
                          {| app_name := "Repo B"; app_id := "app-2" |} ] |});
    Ev (session_request "DELETE" "https://iq.example/api/v2/applications/app-1" None)
      (Val {| status_code := 204; body := BodyOther |});
    Ev (session_request "DELETE" "https://iq.example/api/v2/applications/app-2" None)
      (Val {| status_code := 404; body := BodyOther |}) ].

(** The clients of the example configurations. *)
Definition example_azure : SyncRepos.AzureDevOps.t :=
  SyncRepos.AzureDevOps.__init__ "contoso" "token".

Definition example_cleanup_iq : CleanupTool.IQ.t :=
  CleanupTool.IQ.__init__ "https://iq.example//" "admin" "secret".

(** A request answered 404. *)
Definition not_found_trace : Trace Http :=
  [ Ev (session_request "GET" "https://iq.example/api/v2/applications/organization/42"
          None)
      (Val {| status_code := 404; body := BodyOther |}) ].

(** A listing in which the name "Repo A" comes twice. *)
Definition duplicate_listing : list App :=
  [ {| app_name := "Repo A"; app_id := "old" |};
    {| app_name := "Repo B"; app_id := "b" |};
    {| app_name := "Repo A"; app_id := "new" |} ].

Definition duplicate_listing_trace : Trace Http :=
  [ Ev (session_request "GET" "https://iq.example/api/v2/applications/organization/42"
          None)
      (Val {| status_code := 200; body := BodyApplications duplicate_listing |}) ].

(** A scan request answered 201, and a deletion answered 200. *)
Definition scan_created_trace : Trace Http :=
  [ Ev (session_request "POST"
          "https://iq.example/api/v2/evaluation/applications/app-1/sourceControlEvaluation"
          (Some (ScanData "source" "main")))
      (Val {| status_code := 201; body := BodyOther |}) ].

Definition delete_ok_trace : Trace Http :=
  [ Ev (session_request "DELETE" "https://iq.example/api/v2/applications/app-1" None)
      (Val {| status_code := 200; body := BodyOther |}) ].

(** A project with two repositories, and a listing of two projects, one
    without description and one with a null description. *)
Definition two_repositories_trace : Trace Http :=
  [ Ev (session_request "GET"
          "https://dev.azure.com/contoso/p1/_apis/git/repositories?api-version=7.1" None)
      (Val {| status_code := 200;
              body := BodyRepos [Some example_url; Some "https://elsewhere/repo"] |}) ].

Definition listed_projects : list ProjectJson :=
  [ {| pj_id := "p1"; pj_name := "Repo A"; pj_description := None |};
    {| pj_id := "p2"; pj_name := "Repo B"; pj_description := Some None |} ].

Definition projects_trace : Trace Http :=
  [ Ev (session_request "GET"
          "https://dev.azure.com/contoso/_apis/projects?api-version=7.1" None)
      (Val {| status_code := 200; body := BodyProjects listed_projects |}) ].

(** The listing of the projects is refused. *)
Definition refused_projects_trace : Trace Http :=
  [ Ev (session_request "GET"
          "https://dev.azure.com/contoso/_apis/projects?api-version=7.1" None)
      (Val {| status_code := 503; body := BodyOther |}) ].

(** A project marked for the organization "Alpha2". *)
Definition project_alpha2 : SyncRepos.Project :=
  {| SyncRepos.project_id := "p4";
     SyncRepos.project_name := "Repo D";
     SyncRepos.project_description := Some "權責部門：Alpha2" |}.

(** A sync in which the repository call of the second project raises. *)
Definition aborted_sync_trace : Trace SyncRepos.Call :=
  [ Ev SyncRepos.AzureDevOps_get_projects (Val [project_alpha; project_alpha]);
    Ev (SyncRepos.IQ_get_applications "42") (Val apps_existing);
    Ev (SyncRepos.AzureDevOps_get_repo_url "p1") (Val (Some example_url));
    Ev (SyncRepos.IQ_scan_application "app-1" "main" "source") (Val true);
    Ev (SyncRepos.AzureDevOps_get_repo_url "p1") (Raise (OtherException "boom")) ].

(** A run of the sync tool over [example_orgs] in which the call for Gamma
    raises. *)
Definition faulty_main_trace : Trace SyncRepos.Call :=
  example_sync_trace
  ++ [ Ev SyncRepos.AzureDevOps_get_projects (Raise (OtherException "boom")) ].

(* ===================================================================== *)
(** ** Strings *)
(* ===================================================================== *)

Lemma append_cons (a : Ascii.ascii) (s t : string) :
  String a s +:+ t = String a (s +:+ t).
Proof. reflexivity. Qed.

Lemma startswith_spec (p s : string) :
  startswith p s = true <-> exists post, s = p +:+ post.
Proof.
  revert s. induction p as [|a p IH]; intros s; simpl.
  - split; [intros _; exists s; reflexivity | reflexivity].
  - destruct s as [|b s].
    + split; [discriminate | intros [post H]; discriminate].
    + destruct (decide (a = b)) as [->|Hne].
      * rewrite IH. split; intros [post H]; exists post.
        -- rewrite append_cons. congruence.
        -- rewrite append_cons in H. congruence.
      * split; [discriminate | intros [post H]; rewrite append_cons in H; congruence].
Qed.

Lemma str_in_spec (needle hay : string) :
  str_in needle hay = true <-> exists pre post, hay = pre +:+ needle +:+ post.
Proof.
  induction hay as [|b hay IH]; simpl.
  - rewrite orb_false_r, startswith_spec. split.
    + intros [post H]. exists "", post. exact H.
    + intros [pre [post H]]. destruct pre; [eauto | discriminate].
  - rewrite orb_true_iff, startswith_spec, IH. split.
    + intros [[post H] | [pre [post H]]].
      * exists "", post. exact H.
      * exists (String b pre), post. rewrite append_cons. congruence.
    + intros [pre [post H]]. destruct pre as [|b' pre].
      * left. eauto.
      * right. exists pre, post. rewrite append_cons in H. congruence.
Qed.

(* ===================================================================== *)
(** ** Runs of programs *)
(* ===================================================================== *)

Lemma Runs_bind {E A B} (p : Prog E A) (f : A -> Prog E B) tr b :
  Runs (bind p f) tr b <->
  exists tr1 a tr2, tr = tr1 ++ tr2 /\ Runs p tr1 a /\ Runs (f a) tr2 b.
Proof.
  revert tr. induction p as [a|X e k IH]; intros tr; simpl.
  - split.
    + intros H. exists [], a, tr. auto.
    + intros (tr1 & a' & tr2 & -> & [-> ->] & H). exact H.
  - split.
    + intros (x & tr' & -> & H). apply IH in H as (tr1 & a & tr2 & -> & H1 & H2).
      exists (Ev e x :: tr1), a, tr2. split; [reflexivity|]. split; [|exact H2].
      exists x, tr1. auto.
    + intros (tr1 & a & tr2 & -> & (x & tr' & -> & H1) & H2).
      exists x, (tr' ++ tr2). split; [reflexivity|]. apply IH. eauto 6.
Qed.

(** Every environment gives a run: programs always end. *)
Lemma exec_Runs {E A} (o : Oracle E) (p : Prog E A) hist :
  exists tr, (exec o p hist).2 = hist ++ tr /\ Runs p tr (exec o p hist).1.
Proof.
  revert hist. induction p as [a|X e k IH]; intros hist; simpl.
  - exists []. rewrite app_nil_r. auto.
  - destruct (IH (o X hist e) (hist ++ [Ev e (o X hist e)])) as (tr & Htr & Hr).
    exists (Ev e (o X hist e) :: tr). split.
    + rewrite Htr, <- app_assoc. reflexivity.
    + eauto.
Qed.

Lemma for_each_cons {E S X} (body : S -> X -> Prog E (Res S)) x l s :
  for_each body (x :: l) s = (s' <-! body s x ;; for_each body l s').
Proof. reflexivity. Qed.

Lemma Runs_for_each {E S X} (body : S -> X -> Prog E (Res S)) l s tr s' :
  Runs (for_each body l s) tr (Val s') <->
  exists trs, tr = concat trs /\ LoopRuns body l s trs s'.
Proof.
  revert s tr. induction l as [|x l IH]; intros s tr; simpl.
  - split.
    + intros [-> [= ->]]. exists []. split; [reflexivity | constructor].
    + intros (trs & -> & H). inversion H; subst. auto.
  - rewrite Runs_bind. split.
    + intros (tr1 & r & tr2 & -> & H1 & H2). destruct r as [s1|e].
      * apply IH in H2 as (trs & -> & H2). exists (tr1 :: trs).
        split; [reflexivity | econstructor; eauto].
      * simpl in H2. destruct H2 as [_ [=]].
    + intros (trs & -> & H).
      inversion H as [|x' l' s0 tr1 s1 trs1 s2 Hbody Hrest]; subst.
      exists tr1, (Val s1), (concat trs1). split; [reflexivity|]. split; [assumption|].
      apply IH. eauto.
Qed.

(* ===================================================================== *)
(** ** The sync tool: one project *)
(* ===================================================================== *)

Section SyncProject.
Import SyncRepos.
Variables (config : Config) (org_id : string) (apps : gmap string string).

Lemma scan_step_runs c app_id tr res :
  Runs (Sync.scan_step config c app_id) tr res ->
  exists r_scan,
    tr = [Ev (IQ_scan_application app_id (DEFAULT_BRANCH config) (STAGE_ID config)) r_scan]
    /\ res = Val (after_scan c r_scan).
Proof.
  intros (r & tr' & -> & H). exists r.
  destruct r as [[|]|e]; destruct H as [-> ->]; auto.
Qed.

(** Every run of the loop body, by the replies it got. *)
Lemma process_project_runs c p tr res :
  Runs (Sync.process_project config org_id apps c p) tr res ->
  exists r_url,
    let ev_url := Ev (AzureDevOps_get_repo_url (project_id p)) r_url in
    match r_url with
    | Raise e => tr = [ev_url] /\ res = Raise e
    | Val reply =>
        match as_truthy reply with
        | None => tr = [ev_url] /\ res = Val (inc_errors c)
        | Some clone_url =>
            match as_truthy (apps !! project_name p) with
            | Some app_id =>
                exists r_scan,
                  tr = [ev_url;
                        Ev (IQ_scan_application app_id (DEFAULT_BRANCH config)
                              (STAGE_ID config)) r_scan]
                  /\ res = Val (after_scan c r_scan)
            | None =>
                exists r_create,
                  let ev_create :=
                    Ev (IQ_create_application (project_name p) clone_url
                          (DEFAULT_BRANCH config) org_id) r_create in
                  match r_create with
                  | Raise _ => tr = [ev_url; ev_create] /\ res = Val (inc_errors c)
                  | Val a =>
                      match as_truthy a with
                      | None => tr = [ev_url; ev_create] /\ res = Val (inc_errors c)
                      | Some app_id =>
                          exists r_scan,
                            tr = [ev_url; ev_create;
                                  Ev (IQ_scan_application app_id (DEFAULT_BRANCH config)
                                        (STAGE_ID config)) r_scan]
                            /\ res = Val (after_scan (inc_created c) r_scan)
                      end
                  end
            end
        end
    end.
Proof.
  unfold Sync.process_project. intros (r_url & tr1 & -> & H). exists r_url.
  destruct r_url as [reply|e]; simpl in *.
  - destruct (as_truthy reply) as [clone_url|]; simpl in *.
    + destruct (as_truthy (apps !! project_name p)) as [app_id|]; simpl in *.
      * apply scan_step_runs in H as (r_scan & -> & ->). eauto.
      * destruct H as (r_create & tr2 & -> & H). exists r_create.
        destruct r_create as [a|e]; simpl in *.
        -- destruct (as_truthy a) as [app_id|]; simpl in *.
           ++ apply scan_step_runs in H as (r_scan & -> & ->). eauto.
           ++ destruct H as [-> ->]. auto.
        -- destruct H as [-> ->]. auto.
    + destruct H as [-> ->]. auto.
  - destruct H as [-> ->]. auto.
Qed.

End SyncProject.

(* ===================================================================== *)
(** ** The sync tool: one organization *)
(* ===================================================================== *)

Section SyncOrganization.
Import SyncRepos.
Variables (config : Config) (org_id chinese_name : string).

(** One turn of the loop: one [get_repo_url] call, and one increment of
    [scanned] or of [errors]. *)
Lemma process_project_step apps c p tr c' :
  Runs (Sync.process_project config org_id apps c p) tr (Val c') ->
  repo_url_calls tr = [project_id p]
  /\ scanned c' + errors c' = scanned c + errors c + 1
  /\ created c <= created c' <= created c + 1
  /\ scanned c <= scanned c' /\ errors c <= errors c'.
Proof.
  intros H. apply process_project_runs in H as (r_url & H).
  destruct r_url as [reply|e]; simpl in H; [|destruct H as [_ [=]]].
  destruct (as_truthy reply) as [clone_url|].
  - destruct (as_truthy (apps !! project_name p)) as [app_id|].
    + destruct H as (r_scan & -> & [= ->]).
      destruct r_scan as [[|]|e]; simpl; repeat split; lia.
    + destruct H as (r_create & H). destruct r_create as [a|e].
      * destruct (as_truthy a) as [app_id|].
        -- destruct H as (r_scan & -> & [= ->]).
           destruct r_scan as [[|]|e]; simpl; repeat split; lia.
        -- destruct H as [-> [= ->]]. simpl. repeat split; lia.
      * destruct H as [-> [= ->]]. simpl. repeat split; lia.
  - destruct H as [-> [= ->]]. simpl. repeat split; lia.
Qed.

Lemma process_project_loop apps l c trs c' :
  LoopRuns (Sync.process_project config org_id apps) l c trs c' ->
  repo_url_calls (concat trs) = map project_id l
  /\ scanned c' + errors c' = scanned c + errors c + Z.of_nat (length l)
  /\ created c <= created c' <= created c + Z.of_nat (length l)
  /\ scanned c <= scanned c' /\ errors c <= errors c'.
Proof.
  induction 1 as [c|p l c tr c1 trs c' Hstep Hloop IH].
  - simpl. repeat split; lia.
  - apply process_project_step in Hstep as (Hcalls & Hsum & Hcr & Hsc & Her).
    destruct IH as (IHcalls & IHsum & IHcr & IHsc & IHer).
    simpl concat. unfold repo_url_calls in *. rewrite omap_app, Hcalls, IHcalls.
    simpl length. repeat split; try reflexivity; lia.
Qed.

(** Every run of [sync] that returns normally. *)
Lemma sync_runs tr c :
  Runs (Sync.sync config org_id chinese_name) tr (Val c) ->
  exists all_projects tr',
    tr = Ev AzureDevOps_get_projects (Val all_projects) :: tr' /\
    let matched := Sync.matched_projects all_projects chinese_name in
    (matched = [] /\ tr' = [] /\ c = zero) \/
    (matched <> [] /\
     exists apps trs,
       tr' = Ev (IQ_get_applications org_id) (Val apps) :: concat trs /\
       LoopRuns (Sync.process_project config org_id apps) matched zero trs c).
Proof.
  unfold Sync.sync. intros (r & tr' & -> & H).
  destruct r as [all_projects|e]; simpl in H; [|destruct H as [_ [=]]].
  exists all_projects, tr'. split; [reflexivity|]. simpl.
  destruct (Sync.matched_projects all_projects chinese_name) as [|p l] eqn:Hm.
  - left. destruct H as [-> [= <-]]. auto.
  - right. split; [discriminate|].
    simpl in H. destruct H as (r & tr2 & -> & H).
    destruct r as [apps|e]; [|destruct H as [_ [=]]].
    exists apps. change (Runs (for_each (Sync.process_project config org_id apps)
                                  (p :: l) zero) tr2 (Val c)) in H.
    apply Runs_for_each in H as (trs & -> & H). eauto.
Qed.

End SyncOrganization.

(* ===================================================================== *)
(** ** Matching projects to an organization *)
(* ===================================================================== *)

Lemma append_assoc (s t u : string) : (s +:+ t) +:+ u = s +:+ t +:+ u.
Proof.
  induction s as [|a s IH]; [reflexivity|].
  rewrite !append_cons, IH. reflexivity.
Qed.

Lemma or_else_Some (d : string) : or_else (Some d) "" = d.
Proof. destruct d; reflexivity. Qed.

Lemma filter_sublist {A} (f : A -> bool) (l : list A) : sublist (List.filter f l) l.
Proof.
  induction l as [|x l IH]; simpl; [constructor|].
  destruct (f x); constructor; exact IH.
Qed.

(** A project is selected exactly when its description holds the marker. *)
Lemma matched_projects_In (chinese_name : string) (all_projects : list SyncRepos.Project)
    (p : SyncRepos.Project) :
  In p (SyncRepos.Sync.matched_projects all_projects chinese_name) <->
  In p all_projects /\
  exists d pre post,
    SyncRepos.project_description p = Some d /\
    d = pre +:+ "權責部門：" +:+ chinese_name +:+ post.
Proof.
  unfold SyncRepos.Sync.matched_projects. rewrite filter_In.
  apply and_iff_compat_l. rewrite str_in_spec. split.
  - intros (pre & post & H).
    destruct (SyncRepos.project_description p) as [d|].
    + exists d, pre, post. split; [reflexivity|].
      rewrite or_else_Some in H. rewrite H.
      unfold SyncRepos.Sync.marker. rewrite append_assoc. reflexivity.
    + simpl in H. destruct pre; discriminate.
  - intros (d & pre & post & -> & ->). exists pre, post.
    rewrite or_else_Some. unfold SyncRepos.Sync.marker.
    rewrite append_assoc. reflexivity.
Qed.

(** C1. For every project list and display name, the projects that
    [Sync.sync] selects are exactly those whose description contains the
    marker: the tag 權責部門, the full-width colon and the display name, byte
    for byte (so case-sensitive).  A project without description is never
    selected, the selection keeps the order of the listing, and a run of
    [sync] asks for the repository of exactly the selected projects. *)
Theorem sync_selects_marked_projects (config : SyncRepos.Config)
    (org_id chinese_name : string) :
  (forall all_projects p,
     In p (SyncRepos.Sync.matched_projects all_projects chinese_name) <->
     In p all_projects /\
     exists d pre post,
       SyncRepos.project_description p = Some d /\
       d = pre +:+ "權責部門：" +:+ chinese_name +:+ post)
  /\ (forall all_projects p,
        SyncRepos.project_description p = None ->
        ~ In p (SyncRepos.Sync.matched_projects all_projects chinese_name))
  /\ (forall all_projects,
        sublist (SyncRepos.Sync.matched_projects all_projects chinese_name) all_projects)
  /\ (forall tr c,
        Runs (SyncRepos.Sync.sync config org_id chinese_name) tr (Val c) ->
        exists all_projects tr',
          tr = Ev SyncRepos.AzureDevOps_get_projects (Val all_projects) :: tr' /\
          repo_url_calls tr' =
            map SyncRepos.project_id
              (SyncRepos.Sync.matched_projects all_projects chinese_name)).
Proof.
  split; [|split; [|split]].
  - intros all_projects p. apply matched_projects_In.
  - intros all_projects p Hnone Hin.
    apply matched_projects_In in Hin as (_ & d & _ & _ & Hd & _). congruence.
  - intros all_projects. apply filter_sublist.
  - intros tr c H. apply sync_runs in H as (all_projects & tr' & -> & H).
    exists all_projects, tr'. split; [reflexivity|]. simpl in H.
    destruct H as [(Hm & -> & _) | (_ & apps & trs & -> & Hloop)].
    + rewrite Hm. reflexivity.
    + apply process_project_loop in Hloop as (Hcalls & _). exact Hcalls.
Qed.

(** C9. In every run of [Sync.sync] that returns normally, [scanned +
    errors] is the number of matched projects, [created] is at most that
    number, and no counter is negative. *)
Theorem sync_counters_invariant (config : SyncRepos.Config)
    (org_id chinese_name : string) tr c :
  Runs (SyncRepos.Sync.sync config org_id chinese_name) tr (Val c) ->
  exists all_projects tr',
    tr = Ev SyncRepos.AzureDevOps_get_projects (Val all_projects) :: tr' /\
    let n := Z.of_nat (length (SyncRepos.Sync.matched_projects all_projects chinese_name)) in
    SyncRepos.scanned c + SyncRepos.errors c = n
    /\ 0 <= SyncRepos.created c <= n
    /\ 0 <= SyncRepos.scanned c
    /\ 0 <= SyncRepos.errors c.
Proof.
  intros H. apply sync_runs in H as (all_projects & tr' & -> & H).
  exists all_projects, tr'. split; [reflexivity|]. simpl in *.
  destruct H as [(Hm & -> & ->) | (_ & apps & trs & -> & Hloop)].
  - rewrite Hm. simpl. lia.
  - apply process_project_loop in Hloop as (_ & Hsum & Hcr & Hsc & Her).
    simpl in *. lia.
Qed.

(** The scenario of the specification is a run of [sync]. *)
Example example_sync_run :
  Runs (SyncRepos.Sync.sync example_config "42" "Alpha") example_sync_trace
    (Val {| SyncRepos.created := 1; SyncRepos.scanned := 1; SyncRepos.errors := 0 |}).
Proof. run_trace. Qed.

Lemma sync_selects_marked_projects_witness :
  Runs (SyncRepos.Sync.sync example_config "42" "Alpha") example_sync_trace
    (Val {| SyncRepos.created := 1; SyncRepos.scanned := 1; SyncRepos.errors := 0 |})
  /\ exists all_projects tr',
       example_sync_trace =
         Ev SyncRepos.AzureDevOps_get_projects (Val all_projects) :: tr' /\
       repo_url_calls tr' =
         map SyncRepos.project_id (SyncRepos.Sync.matched_projects all_projects "Alpha").
Proof.
  split; [run_trace|].
  destruct (sync_selects_marked_projects example_config "42" "Alpha") as (_ & _ & _ & H).
  apply (H example_sync_trace
           {| SyncRepos.created := 1; SyncRepos.scanned := 1; SyncRepos.errors := 0 |}).
  run_trace.
Defined.

Lemma sync_counters_invariant_witness :
  Runs (SyncRepos.Sync.sync example_config "42" "Alpha") example_sync_trace
    (Val {| SyncRepos.created := 1; SyncRepos.scanned := 1; SyncRepos.errors := 0 |})
  /\ exists all_projects tr',
       example_sync_trace =
         Ev SyncRepos.AzureDevOps_get_projects (Val all_projects) :: tr' /\
       let n :=
         Z.of_nat (length (SyncRepos.Sync.matched_projects all_projects "Alpha")) in
       1 + 0 = n /\ 0 <= 1 <= n /\ 0 <= 1 /\ 0 <= 0.
Proof.
  split; [run_trace|].
  apply (sync_counters_invariant example_config "42" "Alpha" example_sync_trace
           {| SyncRepos.created := 1; SyncRepos.scanned := 1; SyncRepos.errors := 0 |}).
  run_trace.
Defined.

(** The marker is matched byte for byte: another case of the name, or an
    ASCII colon and a space in place of the full-width colon, do not match. *)
Example marker_is_case_sensitive :
  SyncRepos.Sync.matched_projects
    [ {| SyncRepos.project_id := "p1"; SyncRepos.project_name := "Repo A";
         SyncRepos.project_description := Some "權責部門：alpha" |};
      {| SyncRepos.project_id := "p2"; SyncRepos.project_name := "Repo B";
         SyncRepos.project_description := Some "權責部門: Alpha" |};
      project_alpha; project_undescribed ]
    "Alpha"
  = [project_alpha].
Proof. reflexivity. Qed.

(* ===================================================================== *)
(** ** Creating and scanning the application of a project *)
(* ===================================================================== *)

Lemma as_truthy_Some_inv (o : option string) (s : string) :
  as_truthy o = Some s -> o = Some s /\ truthy_str s = true.
Proof.
  destruct o as [t|]; simpl; [|discriminate].
  destruct (truthy_str t) eqn:Ht; [|discriminate]. intros [= ->]. auto.
Qed.

Lemma as_truthy_Some (s : string) :
  truthy_str s = true -> as_truthy (Some s) = Some s.
Proof. simpl. intros ->. reflexivity. Qed.

Lemma as_truthy_None (o : option string) :
  as_truthy o = None <-> truthy o = false.
Proof.
  destruct o as [t|]; simpl; [|tauto].
  destruct (truthy_str t); split; congruence.
Qed.

Lemma after_scan_cases (c : SyncRepos.Counters) (r : Res bool) :
  (r = Val true /\ after_scan c r = SyncRepos.inc_scanned c) \/
  (r <> Val true /\ after_scan c r = SyncRepos.inc_errors c).
Proof. destruct r as [[|]|e]; simpl; [left | right | right]; split; congruence. Qed.

Section Claims.
Import SyncRepos.
Variables (config : Config) (org_id : string) (apps : gmap string string).

(** C2. A matched project that has a repository URL and no application of
    its name: a creation call is attempted.  If it fails (it raises, or
    returns nothing or the empty id), the project adds 1 to [errors] and
    nothing else, and no scan is attempted.  If it succeeds, one scan call
    is attempted with the new id, and the project adds 1 to [created] and
    1 to exactly one of [scanned] (the scan returned true) and [errors]
    (it returned false or raised). *)
Theorem new_application_created_then_scanned c p tr res :
  apps !! project_name p = None ->
  Runs (Sync.process_project config org_id apps c p) tr res ->
  exists r_url tr1,
    tr = Ev (AzureDevOps_get_repo_url (project_id p)) r_url :: tr1 /\
    forall clone_url,
      r_url = Val (Some clone_url) -> truthy_str clone_url = true ->
      exists r_create tr2,
        tr1 = Ev (IQ_create_application (project_name p) clone_url
                    (DEFAULT_BRANCH config) org_id) r_create :: tr2 /\
        (create_failed r_create = true ->
         tr2 = [] /\
         res = Val {| created := created c; scanned := scanned c;
                      errors := errors c + 1 |}) /\
        (forall app_id,
           r_create = Val (Some app_id) -> truthy_str app_id = true ->
           exists r_scan,
             tr2 = [Ev (IQ_scan_application app_id (DEFAULT_BRANCH config)
                          (STAGE_ID config)) r_scan] /\
             ((r_scan = Val true /\
               res = Val {| created := created c + 1; scanned := scanned c + 1;
                            errors := errors c |}) \/
              (r_scan <> Val true /\
               res = Val {| created := created c + 1; scanned := scanned c;
                            errors := errors c + 1 |}))).
Proof.
  intros Hnone H. apply process_project_runs in H as (r_url & H).
  rewrite Hnone in H. simpl in H.
  destruct r_url as [reply|e].
  - destruct (as_truthy reply) as [url|] eqn:Hurl.
    + destruct H as (r_create & H). destruct r_create as [a|e].
      * destruct (as_truthy a) as [app_id|] eqn:Ha.
        -- destruct H as (r_scan & -> & ->).
           eexists _, _. split; [reflexivity|].
           intros clone_url [= ->] Htruthy.
           rewrite (as_truthy_Some _ Htruthy) in Hurl. injection Hurl as <-.
           eexists _, _. split; [reflexivity|]. split.
           ++ simpl. apply as_truthy_Some_inv in Ha as [-> Ht]. simpl. rewrite Ht.
              discriminate.
           ++ intros app_id' [= ->] Ht. rewrite (as_truthy_Some _ Ht) in Ha.
              injection Ha as <-. exists r_scan. split; [reflexivity|].
              destruct (after_scan_cases (inc_created c) r_scan) as [[-> ->]|[Hne ->]];
                [left | right]; auto.
        -- destruct H as [-> ->].
           eexists _, _. split; [reflexivity|].
           intros clone_url [= ->] Htruthy.
           rewrite (as_truthy_Some _ Htruthy) in Hurl. injection Hurl as <-.
           eexists _, _. split; [reflexivity|]. split; [auto|].
           intros app_id [= ->] Ht. rewrite (as_truthy_Some _ Ht) in Ha. discriminate.
      * destruct H as [-> ->].
        eexists _, _. split; [reflexivity|].
        intros clone_url [= ->] Htruthy.
        rewrite (as_truthy_Some _ Htruthy) in Hurl. injection Hurl as <-.
        eexists _, _. split; [reflexivity|]. split; [auto|]. discriminate.
    + destruct H as [-> ->]. eexists _, _. split; [reflexivity|].
      intros clone_url [= ->] Htruthy. rewrite (as_truthy_Some _ Htruthy) in Hurl.
      discriminate.
  - destruct H as [-> ->]. eexists _, _. split; [reflexivity|]. discriminate.
Qed.

(** A project whose name is mapped to a non-empty id: never a creation
    call, and with a repository exactly one scan call. *)
Lemma mapped_project_runs c p app_id tr res :
  apps !! project_name p = Some app_id ->
  truthy_str app_id = true ->
  Runs (Sync.process_project config org_id apps c p) tr res ->
  Forall (fun ev => is_create ev = false) tr /\
  exists r_url tr1,
    tr = Ev (AzureDevOps_get_repo_url (project_id p)) r_url :: tr1 /\
    forall clone_url,
      r_url = Val (Some clone_url) -> truthy_str clone_url = true ->
      exists r_scan,
        tr1 = [Ev (IQ_scan_application app_id (DEFAULT_BRANCH config)
                     (STAGE_ID config)) r_scan] /\
        ((r_scan = Val true /\
          res = Val {| created := created c; scanned := scanned c + 1;
                       errors := errors c |}) \/
         (r_scan <> Val true /\
          res = Val {| created := created c; scanned := scanned c;
                       errors := errors c + 1 |})).
Proof.
  intros Hsome Hid H. apply process_project_runs in H as (r_url & H).
  rewrite Hsome, (as_truthy_Some _ Hid) in H. simpl in H.
  destruct r_url as [reply|e].
  - destruct (as_truthy reply) as [url|] eqn:Hurl.
    + destruct H as (r_scan & -> & ->). split.
      { repeat constructor. }
      eexists _, _. split; [reflexivity|].
      intros clone_url [= ->] Htruthy. exists r_scan. split; [reflexivity|].
      destruct (after_scan_cases c r_scan) as [[-> ->]|[Hne ->]]; [left | right]; auto.
    + destruct H as [-> ->]. split; [repeat constructor|].
      eexists _, _. split; [reflexivity|].
      intros clone_url [= ->] Htruthy. rewrite (as_truthy_Some _ Htruthy) in Hurl.
      discriminate.
  - destruct H as [-> ->]. split; [repeat constructor|].
    eexists _, _. split; [reflexivity|]. discriminate.
Qed.

(** A project with a repository whose name is absent from the mapping, or
    mapped to a falsy id: a creation call follows the repository call. *)
Lemma falsy_id_creates c p tr res :
  truthy (apps !! project_name p) = false ->
  Runs (Sync.process_project config org_id apps c p) tr res ->
  has_repository tr ->
  creation_attempted config org_id p tr.
Proof.
  intros Hfalsy H (clone_url & Htruthy & Hhead).
  apply process_project_runs in H as (r_url & H).
  apply as_truthy_None in Hfalsy. rewrite Hfalsy in H.
  assert (Hreply : tr <> [] -> head tr ≫= repo_url_reply = Some r_url).
  { destruct r_url as [reply|e]; simpl in H.
    - destruct (as_truthy reply).
      + destruct H as (r_create & H). destruct r_create as [a|e].
        * destruct (as_truthy a); [destruct H as (r_scan & -> & _) | destruct H as [-> _]];
            reflexivity.
        * destruct H as [-> _]. reflexivity.
      + destruct H as [-> _]. reflexivity.
    - destruct H as [-> _]. reflexivity. }
  destruct tr as [|ev tr0]; [discriminate|].
  rewrite Hreply in Hhead by discriminate. injection Hhead as ->.
  simpl in H. rewrite Htruthy in H.
  destruct H as (r_create & H). unfold creation_attempted.
  destruct r_create as [a|e].
  - destruct (as_truthy a); [destruct H as (r_scan & -> & _) | destruct H as [-> _]];
      eexists _, _, _, _; reflexivity.
  - destruct H as [-> _]. eexists _, _, _, _; reflexivity.
Qed.

End Claims.

(* ===================================================================== *)
(** ** The name-to-id mapping of the existing applications *)
(* ===================================================================== *)

Lemma foldl_insert_lookup_None (l : list App) (m : gmap string string) (name : string) :
  foldl (fun m app => <[app_name app := app_id app]> m) m l !! name = None <->
  m !! name = None /\ forall a, In a l -> app_name a <> name.
Proof.
  revert m. induction l as [|a l IH]; intros m; simpl.
  - split; [intros H; split; [exact H | intros a []] | intros [H _]; exact H].
  - rewrite IH, lookup_insert_None. split.
    + intros [[Hm Hne] Hl]. split; [exact Hm|]. intros a' [<-|Hin]; auto.
    + intros [Hm Hl]. split; [split|]; auto.
Qed.

Lemma foldl_insert_lookup_Some (l : list App) (m : gmap string string)
    (name id : string) :
  foldl (fun m app => <[app_name app := app_id app]> m) m l !! name = Some id ->
  m !! name = Some id \/ exists a, In a l /\ app_name a = name /\ app_id a = id.
Proof.
  revert m. induction l as [|a l IH]; intros m; simpl; [auto|].
  intros H. apply IH in H as [H|(a' & Hin & Hn & Hi)].
  - apply lookup_insert_Some in H as [[Hn Hi]|[_ H]]; [right | left; exact H].
    exists a. auto.
  - right. exists a'. auto.
Qed.

(** A name is a key of the mapping exactly when an application of the
    listing has that very name. *)
Lemma dict_of_applications_lookup (l : list App) (name : string) :
  (SyncRepos.IQ.dict_of_applications l !! name = None <->
   forall a, In a l -> app_name a <> name)
  /\ (forall id,
        SyncRepos.IQ.dict_of_applications l !! name = Some id ->
        exists a, In a l /\ app_name a = name /\ app_id a = id).
Proof.
  unfold SyncRepos.IQ.dict_of_applications. split.
  - rewrite foldl_insert_lookup_None, lookup_empty. tauto.
  - intros id H. apply foldl_insert_lookup_Some in H as [H|H]; [|exact H].
    rewrite lookup_empty in H. discriminate.
Qed.

(** C3, as amended.  The mapping of the existing applications has a name
    as key exactly when an application of the listing has that very name
    (byte for byte).  For a matched project that has a repository URL and
    whose name is mapped to a non-empty application id: no creation call
    is attempted, exactly one scan call is attempted with the mapped id,
    and the project adds 1 to [scanned] (the scan returned true) or 1 to
    [errors] (it returned false or raised), and nothing to [created].
    Without a repository URL there is no creation call either. *)
Theorem existing_application_only_scanned (config : SyncRepos.Config) (org_id : string) :
  (forall listing name,
     (SyncRepos.IQ.dict_of_applications listing !! name = None <->
      forall a, In a listing -> app_name a <> name)
     /\ (forall id,
           SyncRepos.IQ.dict_of_applications listing !! name = Some id ->
           exists a, In a listing /\ app_name a = name /\ app_id a = id))
  /\ (forall (apps : gmap string string) c p app_id tr res,
        apps !! SyncRepos.project_name p = Some app_id ->
        truthy_str app_id = true ->
        Runs (SyncRepos.Sync.process_project config org_id apps c p) tr res ->
        Forall (fun ev => is_create ev = false) tr /\
        exists r_url tr1,
          tr = Ev (SyncRepos.AzureDevOps_get_repo_url (SyncRepos.project_id p)) r_url
               :: tr1 /\
          forall clone_url,
            r_url = Val (Some clone_url) -> truthy_str clone_url = true ->
            exists r_scan,
              tr1 = [Ev (SyncRepos.IQ_scan_application app_id
                           (SyncRepos.DEFAULT_BRANCH config)
                           (SyncRepos.STAGE_ID config)) r_scan] /\
              ((r_scan = Val true /\
                res = Val {| SyncRepos.created := SyncRepos.created c;
                             SyncRepos.scanned := SyncRepos.scanned c + 1;
                             SyncRepos.errors := SyncRepos.errors c |}) \/
               (r_scan <> Val true /\
                res = Val {| SyncRepos.created := SyncRepos.created c;
                             SyncRepos.scanned := SyncRepos.scanned c;
                             SyncRepos.errors := SyncRepos.errors c + 1 |}))).
Proof.
  split.
  - intros listing name. apply dict_of_applications_lookup.
  - intros apps c p app_id tr res. apply mapped_project_runs.
Qed.

Lemma existing_application_only_scanned_witness :
  apps_existing !! "Repo A" = Some "app-1"
  /\ truthy_str "app-1" = true
  /\ Runs (SyncRepos.Sync.process_project example_config "42" apps_existing
             SyncRepos.zero project_alpha)
        scan_only_trace (Val (SyncRepos.inc_scanned SyncRepos.zero))
  /\ Forall (fun ev => is_create ev = false) scan_only_trace.
Proof.
  split; [vm_compute; reflexivity|]. split; [reflexivity|]. split; [run_trace|].
  destruct (existing_application_only_scanned example_config "42") as [_ H].
  apply (H apps_existing SyncRepos.zero project_alpha "app-1" scan_only_trace
           (Val (SyncRepos.inc_scanned SyncRepos.zero))).
  - vm_compute; reflexivity.
  - reflexivity.
  - run_trace.
Defined.

(** C3, as stated, fails.  The name of the project is mapped to the empty
    id and a creation call is attempted; the name is mapped to an id, the
    project has no repository, and no scan call is attempted. *)
Lemma existing_application_counterexample :
  ~ mapped_name_never_created /\ ~ mapped_name_always_scanned.
Proof.
  split.
  - intros H.
    assert (Hrun : Runs (SyncRepos.Sync.process_project example_config "42"
                           apps_empty_id SyncRepos.zero project_alpha)
                     create_scan_trace
                     (Val {| SyncRepos.created := 1; SyncRepos.scanned := 1;
                             SyncRepos.errors := 0 |})) by run_trace.
    assert (Hkey : apps_empty_id !! SyncRepos.project_name project_alpha = Some "")
      by (vm_compute; reflexivity).
    specialize (H _ _ _ _ _ _ _ _ Hkey Hrun).
    inversion H as [|ev1 l1 _ H1]; subst.
    inversion H1 as [|ev2 l2 H2 _]; subst.
    discriminate H2.
  - intros H.
    assert (Hrun : Runs (SyncRepos.Sync.process_project example_config "42"
                           apps_existing SyncRepos.zero project_alpha)
                     no_url_trace
                     (Val {| SyncRepos.created := 0; SyncRepos.scanned := 0;
                             SyncRepos.errors := 1 |})) by run_trace.
    assert (Hkey : apps_existing !! SyncRepos.project_name project_alpha = Some "app-1")
      by (vm_compute; reflexivity).
    specialize (H _ _ _ _ _ _ _ _ Hkey Hrun).
    inversion H as [ev1 l1 H1|ev1 l1 H1]; subst.
    + discriminate H1.
    + inversion H1.
Qed.

(* ===================================================================== *)
(** ** Existence is decided by the truthiness of the mapped id *)
(* ===================================================================== *)

Lemma LoopRuns_Forall2 {E S X} (body : S -> X -> Prog E (Res S))
    (P : X -> Trace E -> Prop) l s trs s' :
  (forall s x tr s1, Runs (body s x) tr (Val s1) -> P x tr) ->
  LoopRuns body l s trs s' ->
  Forall2 P l trs.
Proof.
  intros HP. induction 1; constructor; eauto.
Qed.

(** [IQ.get_applications] sends one GET; when the request fails the method
    returns the empty mapping. *)
Lemma get_applications_runs (self : SyncRepos.IQ.t) (org_id : string) tr res :
  Runs (SyncRepos.IQ.get_applications self org_id) tr res ->
  exists r,
    tr = [Ev (session_request "GET"
                (SyncRepos.IQ.base_url self +:+
                 "/api/v2/applications/organization/" +:+ org_id) None) r]
    /\ (request_ok r = false -> res = Val ∅).
Proof.
  intros (r & tr' & -> & H). exists r. simpl in H.
  destruct r as [response|e]; simpl in *.
  - unfold raise_for_status in *.
    destruct ((400 <=? status_code response) && (status_code response <? 600));
      simpl in *.
    + destruct H as [-> ->]. auto.
    + destruct (body response); destruct H as [-> ->]; split; auto; discriminate.
  - destruct H as [-> ->]. auto.
Qed.

(** C10, as amended.  [Sync.sync] decides that an application exists by the
    truthiness of the id mapped to the name of the project: when the name
    is mapped to the empty id, a creation call is attempted for a project
    that has a repository URL, although an application of that name is
    listed.  When the listing request fails, [get_applications] returns
    the empty mapping, and then a creation call is attempted for every
    matched project that has a repository URL. *)
Theorem creation_decided_by_truthiness (config : SyncRepos.Config) (org_id : string) :
  (forall (apps : gmap string string) c p tr res,
     apps !! SyncRepos.project_name p = Some "" ->
     Runs (SyncRepos.Sync.process_project config org_id apps c p) tr res ->
     has_repository tr ->
     creation_attempted config org_id p tr)
  /\ (forall self tr res,
        Runs (SyncRepos.IQ.get_applications self org_id) tr res ->
        exists r,
          tr = [Ev (session_request "GET"
                      (SyncRepos.IQ.base_url self +:+
                       "/api/v2/applications/organization/" +:+ org_id) None) r]
          /\ (request_ok r = false -> res = Val ∅))
  /\ (forall chinese_name tr c,
        Runs (SyncRepos.Sync.sync config org_id chinese_name) tr (Val c) ->
        exists all_projects tr',
          tr = Ev SyncRepos.AzureDevOps_get_projects (Val all_projects) :: tr' /\
          let matched := SyncRepos.Sync.matched_projects all_projects chinese_name in
          (matched = [] /\ tr' = []) \/
          (exists (apps : gmap string string) trs,
             tr' = Ev (SyncRepos.IQ_get_applications org_id) (Val apps) :: concat trs /\
             (apps = ∅ ->
              Forall2
                (fun p tr_p => has_repository tr_p -> creation_attempted config org_id p tr_p)
                matched trs))).
Proof.
  split; [|split].
  - intros apps c p tr res Hkey. apply falsy_id_creates. rewrite Hkey. reflexivity.
  - intros self tr res. apply get_applications_runs.
  - intros chinese_name tr c H. apply sync_runs in H as (all_projects & tr' & -> & H).
    exists all_projects, tr'. split; [reflexivity|]. simpl in *.
    destruct H as [(Hm & -> & _) | (_ & apps & trs & -> & Hloop)]; [left; auto|].
    right. exists apps, trs. split; [reflexivity|]. intros ->.
    eapply LoopRuns_Forall2; [|exact Hloop].
    intros s p tr s1. apply falsy_id_creates. rewrite lookup_empty. reflexivity.
Qed.

Lemma creation_decided_by_truthiness_witness :
  apps_empty_id !! "Repo A" = Some ""
  /\ Runs (SyncRepos.Sync.process_project example_config "42" apps_empty_id
             SyncRepos.zero project_alpha)
        create_scan_trace
        (Val {| SyncRepos.created := 1; SyncRepos.scanned := 1; SyncRepos.errors := 0 |})
  /\ has_repository create_scan_trace
  /\ creation_attempted example_config "42" project_alpha create_scan_trace.
Proof.
  assert (Hrepo : has_repository create_scan_trace).
  { exists example_url. split; reflexivity. }
  split; [vm_compute; reflexivity|]. split; [run_trace|]. split; [exact Hrepo|].
  destruct (creation_decided_by_truthiness example_config "42") as [H _].
  apply (H apps_empty_id SyncRepos.zero project_alpha create_scan_trace
           (Val {| SyncRepos.created := 1; SyncRepos.scanned := 1;
                   SyncRepos.errors := 0 |})).
  - vm_compute; reflexivity.
  - run_trace.
  - exact Hrepo.
Defined.

(** C10, as stated, fails: the listing failed and returned the empty
    mapping, the matched project has no repository, and no creation call is
    attempted for it. *)
Lemma failed_listing_counterexample : ~ failed_listing_creates_for_all.
Proof.
  intros H.
  assert (Hrun : Runs (SyncRepos.Sync.sync example_config "42" "Alpha")
                   no_repository_trace
                   (Val {| SyncRepos.created := 0; SyncRepos.scanned := 0;
                           SyncRepos.errors := 1 |})) by run_trace.
  specialize (H example_config "42" "Alpha" [project_alpha]
                [Ev (SyncRepos.AzureDevOps_get_repo_url "p1") (Val None)] _ Hrun).
  vm_compute in H. discriminate H.
Qed.

(* ===================================================================== *)
(** ** The cleanup tool: one organization *)
(* ===================================================================== *)

Lemma delete_step_runs c app tr res :
  Runs (CleanupTool.Cleanup.delete_step c app) tr res ->
  exists r,
    tr = [Ev (CleanupTool.IQ_delete_application (app_id app)) r] /\
    res = Val (if delete_failed r then CleanupTool.inc_errors c
               else CleanupTool.inc_deleted c).
Proof.
  intros (r & tr' & -> & H). exists r.
  destruct r as [[|]|e]; destruct H as [-> ->]; auto.
Qed.

(** The loop of [cleanup] goes through all the applications, whatever the
    deletions return. *)
Lemma delete_loop_runs apps c tr res :
  Runs (for_each CleanupTool.Cleanup.delete_step apps c) tr res ->
  exists replies,
    length replies = length apps /\
    tr = delete_calls apps replies /\
    res = Val {| CleanupTool.deleted :=
                   CleanupTool.deleted c
                   + (Z.of_nat (length apps) - failed_deletions replies);
                 CleanupTool.errors :=
                   CleanupTool.errors c + failed_deletions replies |}.
Proof.
  revert c tr. induction apps as [|app apps IH]; intros c tr H.
  - destruct H as [-> ->]. exists []. split; [reflexivity|]. split; [reflexivity|].
    destruct c as [d e]. unfold failed_deletions. simpl. do 2 f_equal; lia.
  - rewrite for_each_cons in H. apply Runs_bind in H as (tr1 & r & tr2 & -> & H1 & H2).
    apply delete_step_runs in H1 as (r0 & -> & ->).
    apply IH in H2 as (replies & Hlen & -> & ->).
    exists (r0 :: replies). split; [simpl; congruence|]. split; [reflexivity|].
    unfold failed_deletions. simpl List.filter. simpl length.
    destruct (delete_failed r0); simpl; do 2 f_equal; lia.
Qed.

(** C4. When the listing of the organization returns N applications,
    [Cleanup.cleanup] attempts one deletion per application, in order and
    whatever the earlier attempts returned, and with K failed attempts
    (false returned, or an exception raised) it returns
    [{deleted: N-K, errors: K}]. *)
Theorem cleanup_counts (config : CleanupTool.Config) (org_id chinese_name : string) tr res :
  Runs (CleanupTool.Cleanup.cleanup config org_id chinese_name) tr res ->
  exists r_list tr1,
    tr = Ev (CleanupTool.IQ_get_applications org_id) r_list :: tr1 /\
    forall apps,
      r_list = Val apps ->
      exists replies,
        length replies = length apps /\
        tr1 = delete_calls apps replies /\
        res = Val {| CleanupTool.deleted :=
                       Z.of_nat (length apps) - failed_deletions replies;
                     CleanupTool.errors := failed_deletions replies |}.
Proof.
  unfold CleanupTool.Cleanup.cleanup. intros (r_list & tr1 & -> & H).
  exists r_list, tr1. split; [reflexivity|]. intros apps ->. simpl in H.
  destruct apps as [|app apps].
  - destruct H as [-> ->]. exists []. auto.
  - change (Runs (for_each CleanupTool.Cleanup.delete_step (app :: apps)
                    CleanupTool.zero) tr1 res) in H.
    apply delete_loop_runs in H as (replies & Hlen & -> & ->).
    exists replies. auto.
Qed.

Lemma cleanup_counts_witness :
  Runs (CleanupTool.Cleanup.cleanup example_cleanup_config "42" "Alpha")
    example_cleanup_trace
    (Val {| CleanupTool.deleted := 1; CleanupTool.errors := 2 |})
  /\ exists r_list tr1,
       example_cleanup_trace = Ev (CleanupTool.IQ_get_applications "42") r_list :: tr1 /\
       forall apps,
         r_list = Val apps ->
         exists replies,
           length replies = length apps /\
           tr1 = delete_calls apps replies /\
           Val {| CleanupTool.deleted := 1; CleanupTool.errors := 2 |} =
           Val {| CleanupTool.deleted :=
                    Z.of_nat (length apps) - failed_deletions replies;
                  CleanupTool.errors := failed_deletions replies |}.
Proof.
  split; [run_trace|].
  apply (cleanup_counts example_cleanup_config "42" "Alpha" example_cleanup_trace
           (Val {| CleanupTool.deleted := 1; CleanupTool.errors := 2 |})).
  run_trace.
Defined.

(* ===================================================================== *)
(** ** Creating an application on the scan server *)
(* ===================================================================== *)

Lemma request_ok_Val (response : Response) :
  request_ok (Val response) = true -> raise_for_status response = Val response.
Proof.
  unfold request_ok, raise_for_status.
  destruct ((400 <=? status_code response) && (status_code response <? 600));
    [discriminate | reflexivity].
Qed.

Lemma request_not_ok_Val (response : Response) :
  request_ok (Val response) = false ->
  raise_for_status response = Raise (HTTPError (status_code response)).
Proof.
  unfold request_ok, raise_for_status.
  destruct ((400 <=? status_code response) && (status_code response <? 600));
    [reflexivity | discriminate].
Qed.

(** Every run of [create_application], by the replies it got. *)
Lemma create_application_runs (lower : string -> string)
    (self : SyncRepos.IQ.t) (name repo_url branch org_id : string) tr res :
  Runs (SyncRepos.IQ.create_application lower self name repo_url branch org_id) tr res ->
  exists r1,
    let ev1 :=
      Ev (session_request "POST" (SyncRepos.IQ.base_url self +:+ "/api/v2/applications")
            (Some (AppData (replace_space_hyphen (lower name)) name org_id))) r1 in
    match r1 with
    | Val response =>
        if request_ok r1 then
          match body response with
          | BodyId app_id =>
              exists r2,
                tr = [ev1;
                      Ev (session_request "POST"
                            (SyncRepos.IQ.base_url self +:+
                             "/api/v2/sourceControl/application/" +:+ app_id)
                            (Some (SourceControlData repo_url branch true true true)))
                        r2]
                /\ res = Val (if request_ok r2 then Some app_id else None)
          | _ => tr = [ev1] /\ res = Val None
          end
        else tr = [ev1] /\ res = Val None
    | Raise _ => tr = [ev1] /\ res = Val None
    end.
Proof.
  unfold SyncRepos.IQ.create_application. intros (r1 & tr1 & -> & H).
  exists r1. simpl in H. destruct r1 as [response|e]; simpl in H.
  - destruct (request_ok (Val response)) eqn:Hok.
    + rewrite (request_ok_Val _ Hok) in H. simpl in H.
      destruct (body response) as [| |app_id| |];
        try (destruct H as [-> ->]; auto).
      destruct H as (r2 & tr2 & -> & H). exists r2. simpl in H.
      destruct r2 as [resp2|e2]; simpl in *.
      * unfold raise_for_status in *.
        destruct ((400 <=? status_code resp2) && (status_code resp2 <? 600));
          destruct H as [-> ->]; auto.
      * destruct H as [-> ->]. auto.
    + rewrite (request_not_ok_Val _ Hok) in H. destruct H as [-> ->]. auto.
  - destruct H as [-> ->]. auto.
Qed.

(** C7. [create_application] sends the creation POST.  When that request
    fails, nothing else is sent and the method returns [None].  Otherwise
    it sends the source-control POST for the new id, and returns the id
    when that request succeeds and [None] when it fails.  So an id is
    returned only when both requests succeeded; the method never raises,
    and every request it sends is a POST: no DELETE follows a failure. *)
Theorem create_application_all_or_nothing (lower : string -> string)
    (self : SyncRepos.IQ.t) (name repo_url branch org_id : string) tr res :
  Runs (SyncRepos.IQ.create_application lower self name repo_url branch org_id) tr res ->
  Forall (fun ev => http_method ev = "POST" /\ http_method ev <> "DELETE") tr /\
  exists r1 tr1,
    tr = Ev (session_request "POST" (SyncRepos.IQ.base_url self +:+ "/api/v2/applications")
               (Some (AppData (replace_space_hyphen (lower name)) name org_id))) r1
         :: tr1 /\
    (request_ok r1 = false -> tr1 = [] /\ res = Val None) /\
    ((tr1 = [] /\ res = Val None) \/
     (exists app_id r2,
        request_ok r1 = true /\
        tr1 = [Ev (session_request "POST"
                     (SyncRepos.IQ.base_url self +:+
                      "/api/v2/sourceControl/application/" +:+ app_id)
                     (Some (SourceControlData repo_url branch true true true))) r2] /\
        (request_ok r2 = false -> res = Val None) /\
        (request_ok r2 = true -> res = Val (Some app_id)))) /\
    (forall app_id, res = Val (Some app_id) ->
       request_ok r1 = true /\
       exists r2,
         request_ok r2 = true /\
         tr1 = [Ev (session_request "POST"
                      (SyncRepos.IQ.base_url self +:+
                       "/api/v2/sourceControl/application/" +:+ app_id)
                      (Some (SourceControlData repo_url branch true true true))) r2]).
Proof.
  intros H. apply create_application_runs in H as (r1 & H).
  destruct r1 as [response|e]; cbv beta iota zeta in H.
  - destruct (request_ok (Val response)) eqn:Hok.
    + destruct (body response) as [| |app_id| |];
        try (destruct H as [-> ->]; split;
             [repeat constructor; discriminate|];
             eexists _, _; split; [reflexivity|];
             split; [auto|]; split; [left; auto | discriminate]).
      destruct H as (r2 & -> & ->). split; [repeat constructor; discriminate|].
      eexists _, _. split; [reflexivity|]. split; [congruence|]. split.
      * right. exists app_id, r2. split; [exact Hok|]. split; [reflexivity|].
        split; intros ->; reflexivity.
      * intros app_id' Heq. split; [exact Hok|]. exists r2.
        destruct (request_ok r2); [|discriminate].
        injection Heq as ->. auto.
    + destruct H as [-> ->]. split; [repeat constructor; discriminate|].
      eexists _, _. split; [reflexivity|].
      split; [auto|]. split; [left; auto | discriminate].
  - destruct H as [-> ->]. split; [repeat constructor; discriminate|].
    eexists _, _. split; [reflexivity|].
    split; [auto|]. split; [left; auto | discriminate].
Qed.

(* ===================================================================== *)
(** ** Loading the organizations *)
(* ===================================================================== *)

Lemma truthy_true (o : option string) :
  truthy o = true <-> exists s, o = Some s /\ s <> "".
Proof.
  destruct o as [[|a s]|]; simpl; split; try discriminate.
  - intros (s & [= <-] & H). congruence.
  - intros _. eexists. split; [reflexivity | discriminate].
  - intros _. reflexivity.
  - intros (s & [=] & _).
Qed.

Lemma valid_org_truthy (o : Org) :
  truthy (org_id o) && truthy (org_chineseName o) = true <-> valid_org o.
Proof.
  rewrite andb_true_iff, !truthy_true. unfold valid_org. split.
  - intros [(id & Hid & Hne) (name & Hname & Hne')]. exists id, name. auto.
  - intros (id & name & Hid & Hne & Hname & Hne'). split; eauto.
Qed.

Lemma filter_all {A} (f : A -> bool) (l : list A) :
  (forall x, In x l -> f x = true) -> List.filter f l = l.
Proof.
  induction l as [|x l IH]; simpl; intros H; [reflexivity|].
  rewrite (H x) by auto. f_equal. auto.
Qed.

Lemma filter_none {A} (f : A -> bool) (l : list A) :
  (forall x, In x l -> f x = false) -> List.filter f l = [].
Proof.
  induction l as [|x l IH]; simpl; intros H; [reflexivity|].
  rewrite (H x) by auto. auto.
Qed.

(** What [load_organizations] returns for a file that holds a list. *)
Lemma load_organizations_list (DEBUG : bool) (fs : string -> FileContent Org) orgs :
  fs (org_file DEBUG) = JsonList orgs ->
  SyncRepos.load_organizations DEBUG fs =
  match List.filter (fun o => truthy (org_id o) && truthy (org_chineseName o)) orgs with
  | [] => Raise (ValueError "No valid organizations found in configuration")
  | kept => Val kept
  end.
Proof.
  unfold SyncRepos.load_organizations, org_file. intros ->.
  destruct (List.filter _ orgs); reflexivity.
Qed.

Lemma cleanup_load_organizations_eq (DEBUG : bool) (fs : string -> FileContent Org) :
  CleanupTool.load_organizations DEBUG fs = SyncRepos.load_organizations DEBUG fs.
Proof. reflexivity. Qed.

(** C8. For an organization file that holds a list, [load_organizations]
    (of either tool) keeps, in order, exactly the records that have a
    non-empty id and a non-empty display name, and returns them unless
    none is left.  A non-empty list of such records only is returned as it
    is: same size, same order. *)
Theorem load_organizations_keeps_valid (DEBUG : bool) (fs : string -> FileContent Org)
    (orgs : list Org) :
  fs (org_file DEBUG) = JsonList orgs ->
  exists kept,
    sublist kept orgs
    /\ (forall o, In o kept <-> In o orgs /\ valid_org o)
    /\ ((forall o, In o orgs -> valid_org o) -> kept = orgs)
    /\ SyncRepos.load_organizations DEBUG fs =
         match kept with
         | [] => Raise (ValueError "No valid organizations found in configuration")
         | _ => Val kept
         end
    /\ CleanupTool.load_organizations DEBUG fs = SyncRepos.load_organizations DEBUG fs
    /\ ((forall o, In o orgs -> valid_org o) -> orgs <> [] ->
         SyncRepos.load_organizations DEBUG fs = Val orgs /\
         CleanupTool.load_organizations DEBUG fs = Val orgs).
Proof.
  intros Hfile.
  exists (List.filter (fun o => truthy (org_id o) && truthy (org_chineseName o)) orgs).
  assert (Hall : (forall o, In o orgs -> valid_org o) ->
                 List.filter (fun o => truthy (org_id o) && truthy (org_chineseName o)) orgs
                 = orgs).
  { intros H. apply filter_all. intros o Hin. apply valid_org_truthy. auto. }
  split; [apply filter_sublist|]. split.
  { intros o. rewrite filter_In, valid_org_truthy. reflexivity. }
  split; [exact Hall|]. split.
  { rewrite (load_organizations_list _ _ _ Hfile).
    destruct (List.filter _ orgs); reflexivity. }
  split; [reflexivity|].
  intros Hvalid Hne.
  assert (H : SyncRepos.load_organizations DEBUG fs = Val orgs).
  { rewrite (load_organizations_list _ _ _ Hfile), (Hall Hvalid).
    destruct orgs; [congruence | reflexivity]. }
  split; exact H.
Qed.

(** C6. When the organization file holds a list without any record that
    has both a non-empty id and a non-empty display name (the empty list
    included), [load_organizations] raises, the main function of either
    tool returns after the initialization failure, and it makes no remote
    call: its only run has the empty trace. *)
Theorem no_valid_organization_no_remote_call (getenv : string -> option string)
    (DEBUG : bool) (fs : string -> FileContent Org) (orgs : list Org) :
  fs (org_file DEBUG) = JsonList orgs ->
  (forall o, In o orgs -> ~ valid_org o) ->
  SyncRepos.load_organizations DEBUG fs =
    Raise (ValueError "No valid organizations found in configuration")
  /\ CleanupTool.load_organizations DEBUG fs =
       Raise (ValueError "No valid organizations found in configuration")
  /\ SyncRepos.sync_repos_main getenv DEBUG fs = Ret (Val None)
  /\ CleanupTool.cleanup_main getenv DEBUG fs = Ret (Val None)
  /\ (forall tr r,
        Runs (SyncRepos.sync_repos_main getenv DEBUG fs) tr r -> tr = [] /\ r = Val None)
  /\ (forall tr r,
        Runs (CleanupTool.cleanup_main getenv DEBUG fs) tr r -> tr = [] /\ r = Val None).
Proof.
  intros Hfile Hinvalid.
  assert (Hload : SyncRepos.load_organizations DEBUG fs =
                  Raise (ValueError "No valid organizations found in configuration")).
  { rewrite (load_organizations_list _ _ _ Hfile), filter_none; [reflexivity|].
    intros o Hin. apply not_true_is_false. rewrite valid_org_truthy. auto. }
  assert (Hsync : SyncRepos.sync_repos_main getenv DEBUG fs = Ret (Val None)).
  { unfold SyncRepos.sync_repos_main. rewrite Hload.
    destruct (SyncRepos.load_config getenv); reflexivity. }
  assert (Hcleanup : CleanupTool.cleanup_main getenv DEBUG fs = Ret (Val None)).
  { unfold CleanupTool.cleanup_main.
    change (CleanupTool.load_organizations DEBUG fs)
      with (SyncRepos.load_organizations DEBUG fs).
    rewrite Hload. destruct (CleanupTool.load_config getenv); reflexivity. }
  split; [exact Hload|]. split; [exact Hload|].
  split; [exact Hsync|]. split; [exact Hcleanup|].
  rewrite Hsync, Hcleanup. simpl. auto.
Qed.

(* ===================================================================== *)
(** ** The run loop *)
(* ===================================================================== *)

Lemma load_organizations_truthy (DEBUG : bool) (fs : string -> FileContent Org) orgs :
  SyncRepos.load_organizations DEBUG fs = Val orgs ->
  Forall (fun o => truthy (org_id o) && truthy (org_chineseName o) = true) orgs.
Proof.
  unfold SyncRepos.load_organizations.
  destruct (fs _) as [| |items]; try discriminate.
  destruct (List.filter _ items) as [|o kept] eqn:Hf; [discriminate|].
  intros [= <-]. rewrite <- Hf. apply List.Forall_forall.
  intros o' Hin. apply filter_In in Hin as [_ H]. exact H.
Qed.

Lemma truthy_is_Some (o : option string) : truthy o = true -> exists s, o = Some s.
Proof. destruct o; [eauto | discriminate]. Qed.

(** A loop whose turns each fold one outcome into the state. *)
Lemma LoopRuns_results {E S X R} (body : S -> X -> Prog E (Res S)) (P : X -> Prop)
    (rel : X -> Trace E * R -> Prop) (upd : S -> R -> S) l s trs s' :
  (forall s x tr s1,
     P x -> Runs (body s x) tr (Val s1) -> exists r, rel x (tr, r) /\ s1 = upd s r) ->
  Forall P l ->
  LoopRuns body l s trs s' ->
  exists runs,
    Forall2 rel l runs /\ trs = map fst runs /\ s' = foldl upd s (map snd runs).
Proof.
  intros Hbody HP Hloop. induction Hloop as [s|x l s tr s1 trs s' Hstep Hloop IH].
  - exists []. split; [constructor | auto].
  - apply Forall_cons in HP as [Hx HP].
    destruct (Hbody _ _ _ _ Hx Hstep) as (r & Hrel & ->).
    destruct (IH HP) as (runs & Hruns & -> & ->).
    exists ((tr, r) :: runs). split; [constructor; assumption | auto].
Qed.

Lemma sync_main_step config total org tr total' :
  truthy (org_id org) && truthy (org_chineseName org) = true ->
  Runs (SyncRepos.main_step config total org) tr (Val total') ->
  exists r, sync_org_run config org (tr, r) /\ total' = sync_tally total r.
Proof.
  intros Hvalid H. apply andb_true_iff in Hvalid as [Hid Hname].
  apply truthy_is_Some in Hid as [id Hid]. apply truthy_is_Some in Hname as [name Hname].
  unfold SyncRepos.main_step in H. rewrite Hid, Hname in H. simpl getitem in H.
  cbv beta iota in H.
  apply Runs_bind in H as (tr1 & r & tr2 & -> & H1 & H2).
  exists r. split.
  - exists id, name. destruct r; destruct H2 as [-> _]; rewrite app_nil_r; auto.
  - destruct r; destruct H2 as [_ [= ->]]; reflexivity.
Qed.

Lemma cleanup_main_step config total org tr total' :
  truthy (org_id org) && truthy (org_chineseName org) = true ->
  Runs (CleanupTool.main_step config total org) tr (Val total') ->
  exists r, cleanup_org_run config org (tr, r) /\ total' = cleanup_tally total r.
Proof.
  intros Hvalid H. apply andb_true_iff in Hvalid as [Hid Hname].
  apply truthy_is_Some in Hid as [id Hid]. apply truthy_is_Some in Hname as [name Hname].
  unfold CleanupTool.main_step in H. rewrite Hid, Hname in H. simpl getitem in H.
  cbv beta iota in H.
  apply Runs_bind in H as (tr1 & r & tr2 & -> & H1 & H2).
  exists r. split.
  - exists id, name. destruct r; destruct H2 as [-> _]; rewrite app_nil_r; auto.
  - destruct r; destruct H2 as [_ [= ->]]; reflexivity.
Qed.

Lemma sync_tally_sum total results :
  foldl sync_tally total (map Val results) =
  {| SyncRepos.created :=
       SyncRepos.created total + sumZ (map SyncRepos.created results);
     SyncRepos.scanned :=
       SyncRepos.scanned total + sumZ (map SyncRepos.scanned results);
     SyncRepos.errors :=
       SyncRepos.errors total + sumZ (map SyncRepos.errors results) |}.
Proof.
  revert total. induction results as [|r results IH]; intros total; simpl.
  - destruct total. simpl. f_equal; lia.
  - rewrite IH. unfold SyncRepos.add, sumZ. simpl. f_equal; lia.
Qed.

Lemma cleanup_tally_sum total results :
  foldl cleanup_tally total (map Val results) =
  {| CleanupTool.deleted :=
       CleanupTool.deleted total + sumZ (map CleanupTool.deleted results);
     CleanupTool.errors :=
       CleanupTool.errors total + sumZ (map CleanupTool.errors results) |}.
Proof.
  revert total. induction results as [|r results IH]; intros total; simpl.
  - destruct total. simpl. f_equal; lia.
  - rewrite IH. unfold CleanupTool.add, sumZ. simpl. f_equal; lia.
Qed.

(** C5. In every run of the main function of either tool that gets past
    the initialization, the trace is the per-organization calls one after
    the other, over the loaded organizations in order; and when every
    per-organization call returned a result, each counter of the reported
    total is the sum of that counter over the results, whatever the
    [errors] they report. *)
Theorem totals_are_fieldwise_sums (getenv : string -> option string) (DEBUG : bool)
    (fs : string -> FileContent Org) :
  (forall tr total,
     Runs (SyncRepos.sync_repos_main getenv DEBUG fs) tr (Val (Some total)) ->
     exists config orgs runs,
       SyncRepos.load_config getenv = Val config /\
       SyncRepos.load_organizations DEBUG fs = Val orgs /\
       Forall2 (sync_org_run config) orgs runs /\
       tr = concat (map fst runs) /\
       forall results,
         map snd runs = map Val results ->
         SyncRepos.created total = sumZ (map SyncRepos.created results) /\
         SyncRepos.scanned total = sumZ (map SyncRepos.scanned results) /\
         SyncRepos.errors total = sumZ (map SyncRepos.errors results))
  /\ (forall tr total,
        Runs (CleanupTool.cleanup_main getenv DEBUG fs) tr (Val (Some total)) ->
        exists config orgs runs,
          CleanupTool.load_config getenv = Val config /\
          CleanupTool.load_organizations DEBUG fs = Val orgs /\
          Forall2 (cleanup_org_run config) orgs runs /\
          tr = concat (map fst runs) /\
          forall results,
            map snd runs = map Val results ->
            CleanupTool.deleted total = sumZ (map CleanupTool.deleted results) /\
            CleanupTool.errors total = sumZ (map CleanupTool.errors results)).
Proof.
  split.
  - intros tr total H. unfold SyncRepos.sync_repos_main in H.
    destruct (SyncRepos.load_config getenv) as [config|e]; [|destruct H as [_ [=]]].
    destruct (SyncRepos.load_organizations DEBUG fs) as [orgs|e] eqn:Hload;
      [|destruct H as [_ [=]]].
    apply Runs_bind in H as (tr1 & r & tr2 & -> & H1 & H2).
    destruct r as [total1|e]; destruct H2 as [-> [= <-]].
    apply Runs_for_each in H1 as (trs & -> & Hloop).
    eapply LoopRuns_results in Hloop as (runs & Hruns & -> & ->);
      [|intros s x tr s1; apply sync_main_step|exact (load_organizations_truthy _ _ _ Hload)].
    exists config, orgs, runs. split; [reflexivity|]. split; [reflexivity|].
    split; [exact Hruns|]. split; [apply app_nil_r|].
    intros results ->. rewrite sync_tally_sum. simpl. auto.
  - intros tr total H. unfold CleanupTool.cleanup_main in H.
    destruct (CleanupTool.load_config getenv) as [config|e]; [|destruct H as [_ [=]]].
    destruct (CleanupTool.load_organizations DEBUG fs) as [orgs|e] eqn:Hload;
      [|destruct H as [_ [=]]].
    apply Runs_bind in H as (tr1 & r & tr2 & -> & H1 & H2).
    destruct r as [total1|e]; destruct H2 as [-> [= <-]].
    apply Runs_for_each in H1 as (trs & -> & Hloop).
    eapply LoopRuns_results in Hloop as (runs & Hruns & -> & ->);
      [|intros s x tr s1; apply cleanup_main_step
       |exact (load_organizations_truthy _ _ _ Hload)].
    exists config, orgs, runs. split; [reflexivity|]. split; [reflexivity|].
    split; [exact Hruns|]. split; [apply app_nil_r|].
    intros results ->. rewrite cleanup_tally_sum. simpl. auto.
Qed.

(* ===================================================================== *)
(** ** The theorems at the example inputs *)
(* ===================================================================== *)

Lemma new_application_created_then_scanned_witness :
  (∅ : gmap string string) !! SyncRepos.project_name project_alpha = None
  /\ Runs (SyncRepos.Sync.process_project example_config "42" ∅ SyncRepos.zero
             project_alpha)
        create_scan_trace
        (Val {| SyncRepos.created := 1; SyncRepos.scanned := 1; SyncRepos.errors := 0 |})
  /\ exists r_url tr1,
       create_scan_trace =
         Ev (SyncRepos.AzureDevOps_get_repo_url (SyncRepos.project_id project_alpha)) r_url
         :: tr1.
Proof.
  split; [reflexivity|]. split; [run_trace|].
  destruct (new_application_created_then_scanned example_config "42" ∅ SyncRepos.zero
              project_alpha create_scan_trace
              (Val {| SyncRepos.created := 1; SyncRepos.scanned := 1;
                      SyncRepos.errors := 0 |}))
    as (r_url & tr1 & Htr & _).
  - reflexivity.
  - run_trace.
  - exists r_url, tr1. exact Htr.
Defined.

Lemma create_application_all_or_nothing_witness :
  Runs (SyncRepos.IQ.create_application ascii_lower example_iq "Repo A" example_url
          "main" "42")
    binding_fails_trace (Val None)
  /\ Forall (fun ev => http_method ev = "POST" /\ http_method ev <> "DELETE")
       binding_fails_trace.
Proof.
  split; [run_trace|].
  apply (create_application_all_or_nothing ascii_lower example_iq "Repo A" example_url
           "main" "42" binding_fails_trace (Val None)).
  run_trace.
Defined.

Lemma load_organizations_keeps_valid_witness :
  example_fs (org_file false) = JsonList example_orgs
  /\ SyncRepos.load_organizations false example_fs = Val [org_alpha; org_gamma]
  /\ exists kept,
       sublist kept example_orgs
       /\ forall o, In o kept <-> In o example_orgs /\ valid_org o.
Proof.
  split; [reflexivity|]. split; [reflexivity|].
  destruct (load_organizations_keeps_valid false example_fs example_orgs)
    as (kept & Hsub & Hin & _).
  - reflexivity.
  - exists kept. split; [exact Hsub | exact Hin].
Defined.

Lemma no_valid_organization_no_remote_call_witness :
  invalid_fs (org_file true) = JsonList [org_nameless; org_without_id]
  /\ SyncRepos.sync_repos_main example_getenv true invalid_fs = Ret (Val None)
  /\ CleanupTool.cleanup_main example_getenv true invalid_fs = Ret (Val None).
Proof.
  split; [reflexivity|].
  destruct (no_valid_organization_no_remote_call example_getenv true invalid_fs
              [org_nameless; org_without_id])
    as (_ & _ & Hsync & Hcleanup & _).
  - reflexivity.
  - intros o [<-|[<-|[]]] (id & name & Hid & Hne & Hname & Hne');
      simpl in *; congruence.
  - split; [exact Hsync | exact Hcleanup].
Defined.

Lemma totals_are_fieldwise_sums_witness :
  Runs (SyncRepos.sync_repos_main example_getenv false example_fs) example_main_trace
    (Val (Some {| SyncRepos.created := 1; SyncRepos.scanned := 1;
                  SyncRepos.errors := 0 |}))
  /\ exists config orgs runs,
       SyncRepos.load_config example_getenv = Val config /\
       SyncRepos.load_organizations false example_fs = Val orgs /\
       Forall2 (sync_org_run config) orgs runs /\
       example_main_trace = concat (map fst runs) /\
       forall results,
         map snd runs = map Val results ->
         1 = sumZ (map SyncRepos.created results) /\
         1 = sumZ (map SyncRepos.scanned results) /\
         0 = sumZ (map SyncRepos.errors results).
Proof.
  split; [run_trace|].
  destruct (totals_are_fieldwise_sums example_getenv false example_fs) as [H _].
  apply (H example_main_trace
           {| SyncRepos.created := 1; SyncRepos.scanned := 1; SyncRepos.errors := 0 |}).
  run_trace.
Defined.

(* ===================================================================== *)
(** ** The sync tool with the clients it builds *)
(* ===================================================================== *)

Lemma Runs_interp {E F A} (h : forall X, E X -> Prog F X) (p : Prog E A) tr a :
  Runs (interp h p) tr a -> exists mtr, Runs p mtr a /\ Handled h mtr tr.
Proof.
  revert tr. induction p as [a'|X e k IH]; intros tr; simpl.
  - intros [-> ->]. exists []. split; [auto | constructor].
  - intros H. apply Runs_bind in H as (seg & x & tr2 & -> & Hseg & H).
    apply IH in H as (mtr & Hrun & Hh).
    exists (Ev e x :: mtr). split; [eauto | constructor; assumption].
Qed.






(** Against the example servers: the listing of the applications fails, so
    the application of the matched project is created, bound and scanned,
    in six requests. *)
Example sync_http_example :
  let run := exec example_servers
               (SyncRepos.sync_http ascii_lower example_config "42" "Alpha") [] in
  run.1 = Val {| SyncRepos.created := 1; SyncRepos.scanned := 1; SyncRepos.errors := 0 |}
  /\ map http_method run.2 = ["GET"; "GET"; "GET"; "POST"; "POST"; "POST"].
Proof. vm_compute. split; reflexivity. Qed.

(* ===================================================================== *)
(** ** The run loop always reaches the summary *)
(* ===================================================================== *)

Lemma for_each_returns {E S X} (body : S -> X -> Prog E (Res S)) (P : X -> Prop) l s tr res :
  (forall s x tr r, P x -> Runs (body s x) tr r -> returned r = true) ->
  Forall P l ->
  Runs (for_each body l s) tr res ->
  returned res = true.
Proof.
  intros Hbody HP. revert s tr. induction l as [|x l IH]; intros s tr H.
  - destruct H as [_ ->]. reflexivity.
  - apply Forall_cons in HP as [Hx HP].
    rewrite for_each_cons in H. apply Runs_bind in H as (tr1 & r & tr2 & -> & H1 & H2).
    pose proof (Hbody _ _ _ _ Hx H1) as Hr.
    destruct r as [s1|e]; [eauto | discriminate Hr].
Qed.

Lemma sync_main_step_returns config total org tr r :
  truthy (org_id org) && truthy (org_chineseName org) = true ->
  Runs (SyncRepos.main_step config total org) tr r ->
  returned r = true.
Proof.
  intros Hvalid H. apply andb_true_iff in Hvalid as [Hid Hname].
  apply truthy_is_Some in Hid as [id Hid]. apply truthy_is_Some in Hname as [name Hname].
  unfold SyncRepos.main_step in H. rewrite Hid, Hname in H. simpl getitem in H.
  cbv beta iota in H.
  apply Runs_bind in H as (tr1 & r0 & tr2 & _ & _ & H2).
  destruct r0; destruct H2 as [_ ->]; reflexivity.
Qed.

Lemma cleanup_main_step_returns config total org tr r :
  truthy (org_id org) && truthy (org_chineseName org) = true ->
  Runs (CleanupTool.main_step config total org) tr r ->
  returned r = true.
Proof.
  intros Hvalid H. apply andb_true_iff in Hvalid as [Hid Hname].
  apply truthy_is_Some in Hid as [id Hid]. apply truthy_is_Some in Hname as [name Hname].
  unfold CleanupTool.main_step in H. rewrite Hid, Hname in H. simpl getitem in H.
  cbv beta iota in H.
  apply Runs_bind in H as (tr1 & r0 & tr2 & _ & _ & H2).
  destruct r0; destruct H2 as [_ ->]; reflexivity.
Qed.

(** X21. No exception leaves the main function of either tool, whatever
    the clients return or raise: a per-organization call that raises is
    counted and the loop goes on to the summary. *)
Lemma main_functions_return (getenv : string -> option string) (DEBUG : bool)
    (fs : string -> FileContent Org) :
  (forall tr res,
     Runs (SyncRepos.sync_repos_main getenv DEBUG fs) tr res -> returned res = true)
  /\ (forall tr res,
        Runs (CleanupTool.cleanup_main getenv DEBUG fs) tr res -> returned res = true).
Proof.
  split.
  - intros tr res H. unfold SyncRepos.sync_repos_main in H.
    destruct (SyncRepos.load_config getenv) as [config|e]; [|destruct H as [_ ->]; reflexivity].
    destruct (SyncRepos.load_organizations DEBUG fs) as [orgs|e] eqn:Hload;
      [|destruct H as [_ ->]; reflexivity].
    apply Runs_bind in H as (tr1 & r & tr2 & _ & H1 & H2).
    eapply for_each_returns in H1;
      [|intros s x tr' r'; apply sync_main_step_returns
       |exact (load_organizations_truthy _ _ _ Hload)].
    destruct r as [total|e]; [|discriminate H1].
    destruct H2 as [_ ->]. reflexivity.
  - intros tr res H. unfold CleanupTool.cleanup_main in H.
    destruct (CleanupTool.load_config getenv) as [config|e];
      [|destruct H as [_ ->]; reflexivity].
    destruct (CleanupTool.load_organizations DEBUG fs) as [orgs|e] eqn:Hload;
      [|destruct H as [_ ->]; reflexivity].
    apply Runs_bind in H as (tr1 & r & tr2 & _ & H1 & H2).
    eapply for_each_returns in H1;
      [|intros s x tr' r'; apply cleanup_main_step_returns
       |exact (load_organizations_truthy _ _ _ Hload)].
    destruct r as [total|e]; [|discriminate H1].
    destruct H2 as [_ ->]. reflexivity.
Qed.

(* ===================================================================== *)
(** ** Loading the configuration *)
(* ===================================================================== *)

Lemma truthy_default (o : option string) :
  truthy o = true -> o = Some (default "" o) /\ default "" o <> "".
Proof.
  intros H. apply truthy_true in H as (s & -> & Hs). simpl. auto.
Qed.

Lemma missing_keys (getenv : string -> option string) (keys : list string) :
  let missing := List.filter (fun k => negb (truthy (getenv k))) keys in
  sublist missing keys /\
  (forall k, In k missing <-> In k keys /\ truthy (getenv k) = false).
Proof.
  split; [apply filter_sublist|].
  intros k. rewrite filter_In, negb_true_iff. reflexivity.
Qed.

(** X1. [load_config] of the sync tool returns a configuration exactly
    when the five required settings are set and non-empty; the
    configuration then holds their values, and each optional setting holds
    its value when it is set (the empty string included) and its default
    ("main", "source") only when it is unset.  When a required setting is
    unset or empty, [load_config] raises the [ValueError] that lists
    exactly the missing settings, in the order of [required_keys]. *)
Theorem load_config_outcome (getenv : string -> option string) :
  ((forall k, In k SyncRepos.required_keys -> truthy (getenv k) = true) ->
   exists config,
     SyncRepos.load_config getenv = Val config /\
     getenv "AZURE_DEVOPS_TOKEN" = Some (SyncRepos.AZURE_DEVOPS_TOKEN config) /\
     getenv "AZURE_DEVOPS_ORGANIZATION" = Some (SyncRepos.AZURE_DEVOPS_ORGANIZATION config) /\
     getenv "IQ_SERVER_URL" = Some (SyncRepos.IQ_SERVER_URL config) /\
     getenv "IQ_USERNAME" = Some (SyncRepos.IQ_USERNAME config) /\
     getenv "IQ_PASSWORD" = Some (SyncRepos.IQ_PASSWORD config) /\
     (getenv "DEFAULT_BRANCH" = None -> SyncRepos.DEFAULT_BRANCH config = "main") /\
     (forall v, getenv "DEFAULT_BRANCH" = Some v -> SyncRepos.DEFAULT_BRANCH config = v) /\
     (getenv "STAGE_ID" = None -> SyncRepos.STAGE_ID config = "source") /\
     (forall v, getenv "STAGE_ID" = Some v -> SyncRepos.STAGE_ID config = v))
  /\ (forall k,
        In k SyncRepos.required_keys -> truthy (getenv k) = false ->
        exists missing,
          SyncRepos.load_config getenv =
            Raise (ValueError ("Missing required environment variables: "
                               +:+ join_comma missing)) /\
          sublist missing SyncRepos.required_keys /\
          (forall k', In k' missing <->
                      In k' SyncRepos.required_keys /\ truthy (getenv k') = false))
  /\ (forall config,
        SyncRepos.load_config getenv = Val config ->
        forall k, In k SyncRepos.required_keys -> truthy (getenv k) = true).
Proof.
  pose proof (missing_keys getenv SyncRepos.required_keys) as [Hsub Hin].
  cbv zeta in Hsub, Hin. unfold SyncRepos.load_config.
  destruct (List.filter (fun k => negb (truthy (getenv k))) SyncRepos.required_keys)
    as [|k0 missing] eqn:Hf.
  - assert (Hall : forall k, In k SyncRepos.required_keys -> truthy (getenv k) = true).
    { intros k Hk. destruct (truthy (getenv k)) eqn:Ht; [reflexivity|].
      destruct (proj2 (Hin k) (conj Hk Ht)). }
    split; [|split].
    + intros _. eexists. split; [reflexivity|]. simpl.
      repeat (split; [apply truthy_default, Hall; simpl; tauto|]).
      repeat split; try (intros ->; reflexivity); intros v ->; reflexivity.
    + intros k Hk Ht. rewrite (Hall k Hk) in Ht. discriminate.
    + intros config _. exact Hall.
  - split; [|split].
    + intros Hall. destruct (proj1 (Hin k0) (or_introl eq_refl)) as [Hk Ht].
      rewrite (Hall k0 Hk) in Ht. discriminate.
    + intros k Hk Ht. exists (k0 :: missing). auto.
    + discriminate.
Qed.

(** X2. [load_config] of the cleanup tool returns a configuration exactly
    when its three required settings are set and non-empty, and the
    configuration holds their values; otherwise it raises the [ValueError]
    that lists exactly the missing settings, in order. *)
Theorem cleanup_load_config_outcome (getenv : string -> option string) :
  ((forall k, In k CleanupTool.required_keys -> truthy (getenv k) = true) ->
   exists config,
     CleanupTool.load_config getenv = Val config /\
     getenv "IQ_SERVER_URL" = Some (CleanupTool.IQ_SERVER_URL config) /\
     getenv "IQ_USERNAME" = Some (CleanupTool.IQ_USERNAME config) /\
     getenv "IQ_PASSWORD" = Some (CleanupTool.IQ_PASSWORD config))
  /\ (forall k,
        In k CleanupTool.required_keys -> truthy (getenv k) = false ->
        exists missing,
          CleanupTool.load_config getenv =
            Raise (ValueError ("Missing required environment variables: "
                               +:+ join_comma missing)) /\
          sublist missing CleanupTool.required_keys /\
          (forall k', In k' missing <->
                      In k' CleanupTool.required_keys /\ truthy (getenv k') = false))
  /\ (forall config,
        CleanupTool.load_config getenv = Val config ->
        forall k, In k CleanupTool.required_keys -> truthy (getenv k) = true).
Proof.
  pose proof (missing_keys getenv CleanupTool.required_keys) as [Hsub Hin].
  cbv zeta in Hsub, Hin. unfold CleanupTool.load_config.
  destruct (List.filter (fun k => negb (truthy (getenv k))) CleanupTool.required_keys)
    as [|k0 missing] eqn:Hf.
  - assert (Hall : forall k, In k CleanupTool.required_keys -> truthy (getenv k) = true).
    { intros k Hk. destruct (truthy (getenv k)) eqn:Ht; [reflexivity|].
      destruct (proj2 (Hin k) (conj Hk Ht)). }
    split; [|split].
    + intros _. eexists. split; [reflexivity|]. simpl.
      repeat split; apply truthy_default, Hall; simpl; tauto.
    + intros k Hk Ht. rewrite (Hall k Hk) in Ht. discriminate.
    + intros config _. exact Hall.
  - split; [|split].
    + intros Hall. destruct (proj1 (Hin k0) (or_introl eq_refl)) as [Hk Ht].
      rewrite (Hall k0 Hk) in Ht. discriminate.
    + intros k Hk Ht. exists (k0 :: missing). auto.
    + discriminate.
Qed.

(** X3. [load_organizations] (of either tool) reads only the file that
    [DEBUG] selects.  A missing file raises [FileNotFoundError] naming
    that file, and a file that is not JSON raises [ValueError].  A list
    that is returned is never empty, and each of its records has a
    non-empty id and a non-empty display name. *)
Theorem load_organizations_outcomes (DEBUG : bool) (fs : string -> FileContent Org) :
  (forall fs' : string -> FileContent Org,
     fs' (org_file DEBUG) = fs (org_file DEBUG) ->
     SyncRepos.load_organizations DEBUG fs' = SyncRepos.load_organizations DEBUG fs /\
     CleanupTool.load_organizations DEBUG fs' = CleanupTool.load_organizations DEBUG fs)
  /\ (fs (org_file DEBUG) = NoSuchFile ->
      SyncRepos.load_organizations DEBUG fs =
        Raise (FileNotFoundError ("Organization configuration file not found: "
                                  +:+ org_file DEBUG)) /\
      CleanupTool.load_organizations DEBUG fs =
        Raise (FileNotFoundError ("Organization configuration file not found: "
                                  +:+ org_file DEBUG)))
  /\ (fs (org_file DEBUG) = InvalidJson ->
      exists msg,
        SyncRepos.load_organizations DEBUG fs = Raise (ValueError msg) /\
        CleanupTool.load_organizations DEBUG fs = Raise (ValueError msg))
  /\ (forall orgs,
        SyncRepos.load_organizations DEBUG fs = Val orgs \/
        CleanupTool.load_organizations DEBUG fs = Val orgs ->
        orgs <> [] /\ forall o, In o orgs -> valid_org o).
Proof.
  split; [|split; [|split]].
  - intros fs' Heq.
    assert (H : SyncRepos.load_organizations DEBUG fs' =
                SyncRepos.load_organizations DEBUG fs).
    { unfold SyncRepos.load_organizations. fold (org_file DEBUG). rewrite Heq.
      reflexivity. }
    split; exact H.
  - intros Hfile.
    assert (H : SyncRepos.load_organizations DEBUG fs =
                Raise (FileNotFoundError ("Organization configuration file not found: "
                                          +:+ org_file DEBUG))).
    { unfold SyncRepos.load_organizations. fold (org_file DEBUG). rewrite Hfile.
      reflexivity. }
    split; exact H.
  - intros Hfile. eexists.
    assert (H : SyncRepos.load_organizations DEBUG fs =
                Raise (ValueError "Invalid JSON in organization configuration")).
    { unfold SyncRepos.load_organizations. fold (org_file DEBUG). rewrite Hfile.
      reflexivity. }
    split; exact H.
  - intros orgs Hload.
    assert (H : SyncRepos.load_organizations DEBUG fs = Val orgs)
      by (destruct Hload as [H|H]; exact H).
    pose proof (load_organizations_truthy _ _ _ H) as Hvalid.
    split.
    + unfold SyncRepos.load_organizations in H.
      destruct (fs _) as [| |items]; try discriminate.
      destruct (List.filter _ items); [discriminate|]. injection H as <-. discriminate.
    + intros o Hin. apply valid_org_truthy.
      rewrite List.Forall_forall in Hvalid. auto.
Qed.

(* ===================================================================== *)
(** ** The methods of the clients *)
(* ===================================================================== *)

(** The body shared by the three [_request] methods. *)
Lemma request_runs (method url : string) (json : option Payload) tr res :
  Runs (r <- call (session_request method url json) ;;
        match r with
        | Val response => Ret (raise_for_status response)
        | Raise e => Ret (Raise e)
        end) tr res ->
  exists r,
    tr = [Ev (session_request method url json) r] /\
    match r with
    | Raise e => res = Raise e
    | Val response =>
        (400 <= status_code response < 600 ->
         res = Raise (HTTPError (status_code response))) /\
        (status_code response < 400 \/ 600 <= status_code response ->
         res = Val response)
    end.
Proof.
  intros (r & tr' & -> & H). exists r. simpl in H.
  destruct r as [response|e]; destruct H as [-> ->]; [|auto].
  split; [reflexivity|]. unfold raise_for_status.
  destruct (Z.leb_spec 400 (status_code response));
    destruct (Z.ltb_spec (status_code response) 600); simpl; split; intros; lia || auto.
Qed.

(** X4. [_request], in each of the three clients, sends exactly one request
    to the base URL followed by the endpoint, without any retry.  An
    exception of the request is raised again; a status from 400 to 599
    raises [HTTPError]; a response with any other status (1xx and 3xx
    included) is returned to the caller. *)
Theorem request_sends_once_and_checks_status (method endpoint : string)
    (json : option Payload) tr res :
  let outcome (url : string) :=
    exists r,
      tr = [Ev (session_request method url json) r] /\
      match r with
      | Raise e => res = Raise e
      | Val response =>
          (400 <= status_code response < 600 ->
           res = Raise (HTTPError (status_code response))) /\
          (status_code response < 400 \/ 600 <= status_code response ->
           res = Val response)
      end in
  (forall self : SyncRepos.IQ.t,
     Runs (SyncRepos.IQ._request self method endpoint json) tr res ->
     outcome (SyncRepos.IQ.base_url self +:+ endpoint))
  /\ (forall self : SyncRepos.AzureDevOps.t,
        Runs (SyncRepos.AzureDevOps._request self method endpoint json) tr res ->
        outcome (SyncRepos.AzureDevOps.base_url self +:+ endpoint))
  /\ (forall self : CleanupTool.IQ.t,
        Runs (CleanupTool.IQ._request self method endpoint json) tr res ->
        outcome (CleanupTool.IQ.base_url self +:+ endpoint)).
Proof.
  cbv zeta. split; [|split]; intros self H.
  - unfold SyncRepos.IQ._request in H. apply request_runs in H. exact H.
  - unfold SyncRepos.AzureDevOps._request in H. apply request_runs in H. exact H.
  - unfold CleanupTool.IQ._request in H. apply request_runs in H. exact H.
Qed.

Lemma foldl_insert_last (l : list App) (m : gmap string string) (name : string) :
  foldl (fun m app => <[app_name app := app_id app]> m) m l !! name =
  match last_named name l with
  | Some a => Some (app_id a)
  | None => m !! name
  end.
Proof.
  unfold last_named. revert m. induction l as [|a l IH]; intros m; simpl; [reflexivity|].
  rewrite IH. destruct (bool_decide (app_name a = name)) eqn:Hd.
  - apply bool_decide_eq_true in Hd. rewrite last_cons.
    destruct (last (List.filter _ l)); [reflexivity|].
    rewrite <- Hd, lookup_insert_eq. reflexivity.
  - apply bool_decide_eq_false in Hd.
    destruct (last (List.filter _ l)); [reflexivity|].
    apply lookup_insert_ne. exact Hd.
Qed.

(** X5. [IQ.get_applications] of the sync tool sends one GET for the
    organization and never raises.  When the request fails, or the body is
    not a listing, it returns the empty mapping.  Otherwise the mapping has
    exactly the names of the listing as keys, and a name listed several
    times is mapped to the id of its last entry. *)
Theorem get_applications_last_entry_wins (self : SyncRepos.IQ.t) (org_id : string) tr res :
  Runs (SyncRepos.IQ.get_applications self org_id) tr res ->
  exists r m,
    tr = [Ev (session_request "GET"
                (SyncRepos.IQ.base_url self +:+
                 "/api/v2/applications/organization/" +:+ org_id) None) r] /\
    res = Val m /\
    (request_ok r = false -> m = ∅) /\
    (forall response,
       r = Val response -> request_ok r = true ->
       match body response with
       | BodyApplications listing =>
           forall name, m !! name = app_id <$> last_named name listing
       | _ => m = ∅
       end).
Proof.
  intros (r & tr' & -> & H). exists r. simpl in H.
  destruct r as [response|e]; simpl in H.
  - destruct (request_ok (Val response)) eqn:Hok.
    + rewrite (request_ok_Val _ Hok) in H. simpl in H.
      destruct (body response) as [|listing| | |] eqn:Hbody;
        destruct H as [-> ->]; eexists; (split; [reflexivity|]);
        (split; [reflexivity|]); (split; [discriminate|]);
        intros response' [= <-] _; rewrite Hbody; try reflexivity.
      intros name. unfold SyncRepos.IQ.dict_of_applications.
      rewrite foldl_insert_last, lookup_empty.
      destruct (last_named name listing); reflexivity.
    + rewrite (request_not_ok_Val _ Hok) in H. destruct H as [-> ->].
      exists ∅. split; [reflexivity|]. split; [reflexivity|].
      split; [reflexivity|]. intros response' _ [=].
  - destruct H as [-> ->]. exists ∅. split; [reflexivity|]. split; [reflexivity|].
    split; [reflexivity|]. intros response' [=].
Qed.

(** X6. [IQ.scan_application] sends one POST to the evaluation endpoint of
    the application, with the stage and the branch, and never raises.  It
    returns true exactly when the response has status 200: any other
    status, 2xx included, and any exception give false. *)
Theorem scan_application_true_iff_200 (self : SyncRepos.IQ.t)
    (app_id branch stage_id : string) tr res :
  Runs (SyncRepos.IQ.scan_application self app_id branch stage_id) tr res ->
  exists r b,
    tr = [Ev (session_request "POST"
                (SyncRepos.IQ.base_url self +:+
                 "/api/v2/evaluation/applications/" +:+ app_id +:+
                 "/sourceControlEvaluation")
                (Some (ScanData stage_id branch))) r] /\
    res = Val b /\
    (b = true <-> exists response, r = Val response /\ status_code response = 200).
Proof.
  intros (r & tr' & -> & H). exists r. simpl in H.
  destruct r as [response|e]; simpl in H.
  - destruct (request_ok (Val response)) eqn:Hok.
    + rewrite (request_ok_Val _ Hok) in H. destruct H as [-> ->].
      eexists. split; [reflexivity|]. split; [reflexivity|].
      rewrite Z.eqb_eq. split; [eauto|]. intros (response' & [= <-] & Hs). exact Hs.
    + pose proof Hok as Hok'. unfold request_ok, raise_for_status in Hok'.
      rewrite (request_not_ok_Val _ Hok) in H. destruct H as [-> ->].
      exists false. split; [reflexivity|]. split; [reflexivity|].
      split; [discriminate|]. intros (response' & [= <-] & Hs).
      rewrite Hs in Hok'. discriminate Hok'.
  - destruct H as [-> ->]. exists false. split; [reflexivity|]. split; [reflexivity|].
    split; [discriminate|]. intros (response' & [=] & _).
Qed.

(** X7. [IQ.delete_application] sends one DELETE for the application and
    never raises.  It returns true exactly when the response has status
    204: any other status, 200 included, and any exception give false. *)
Theorem delete_application_true_iff_204 (self : CleanupTool.IQ.t) (app_id : string)
    tr res :
  Runs (CleanupTool.IQ.delete_application self app_id) tr res ->
  exists r b,
    tr = [Ev (session_request "DELETE"
                (CleanupTool.IQ.base_url self +:+ "/api/v2/applications/" +:+ app_id)
                None) r] /\
    res = Val b /\
    (b = true <-> exists response, r = Val response /\ status_code response = 204).
Proof.
  intros (r & tr' & -> & H). exists r. simpl in H.
  destruct r as [response|e]; simpl in H.
  - destruct (request_ok (Val response)) eqn:Hok.
    + rewrite (request_ok_Val _ Hok) in H. destruct H as [-> ->].
      eexists. split; [reflexivity|]. split; [reflexivity|].
      rewrite Z.eqb_eq. split; [eauto|]. intros (response' & [= <-] & Hs). exact Hs.
    + pose proof Hok as Hok'. unfold request_ok, raise_for_status in Hok'.
      rewrite (request_not_ok_Val _ Hok) in H. destruct H as [-> ->].
      exists false. split; [reflexivity|]. split; [reflexivity|].
      split; [discriminate|]. intros (response' & [= <-] & Hs).
      rewrite Hs in Hok'. discriminate Hok'.
  - destruct H as [-> ->]. exists false. split; [reflexivity|]. split; [reflexivity|].
    split; [discriminate|]. intros (response' & [=] & _).
Qed.

(** X8. [AzureDevOps.get_repo_url] sends one GET for the repositories of
    the project and never raises.  It returns the [remoteUrl] of the first
    repository listed, whatever the others are; with no repository, a
    failed request or an unreadable body it returns [None]. *)
Theorem get_repo_url_takes_first (self : SyncRepos.AzureDevOps.t) (project_id : string)
    tr res :
  Runs (SyncRepos.AzureDevOps.get_repo_url self project_id) tr res ->
  exists r o,
    tr = [Ev (session_request "GET"
                (SyncRepos.AzureDevOps.base_url self +:+
                 "/" +:+ project_id +:+ "/_apis/git/repositories?api-version=7.1")
                None) r] /\
    res = Val o /\
    (request_ok r = false -> o = None) /\
    (forall response,
       r = Val response -> request_ok r = true ->
       match body response with
       | BodyRepos (first :: _) => o = first
       | _ => o = None
       end).
Proof.
  intros (r & tr' & -> & H). exists r. simpl in H.
  destruct r as [response|e]; simpl in H.
  - destruct (request_ok (Val response)) eqn:Hok.
    + rewrite (request_ok_Val _ Hok) in H. simpl in H.
      destruct (body response) as [| | | |[|first rest]] eqn:Hbody;
        destruct H as [-> ->]; eexists; (split; [reflexivity|]);
        (split; [reflexivity|]); (split; [discriminate|]);
        intros response' [= <-] _; rewrite Hbody; reflexivity.
    + rewrite (request_not_ok_Val _ Hok) in H. destruct H as [-> ->].
      exists None. split; [reflexivity|]. split; [reflexivity|].
      split; [reflexivity|]. intros response' _ [=].
  - destruct H as [-> ->]. exists None. split; [reflexivity|]. split; [reflexivity|].
    split; [reflexivity|]. intros response' [=].
Qed.

Lemma project_of_json_map (value : list ProjectJson) :
  Forall2 project_of_json value
    (map (fun project =>
            {| SyncRepos.project_id := pj_id project;
               SyncRepos.project_name := pj_name project;
               SyncRepos.project_description :=
                 default (Some "") (pj_description project) |}) value).
Proof.
  induction value as [|project value IH]; constructor; [|exact IH].
  unfold project_of_json. simpl. destruct (pj_description project); auto.
Qed.

(** X9. [AzureDevOps.get_projects] sends one GET and never raises.  A
    failed request or an unreadable body gives the empty list.  Otherwise
    the result has one project per listed project, in order, with its id
    and name; a project listed without description gets the empty string,
    and a null description stays [None]. *)
Theorem get_projects_normalizes (self : SyncRepos.AzureDevOps.t) tr res :
  Runs (SyncRepos.AzureDevOps.get_projects self) tr res ->
  exists r l,
    tr = [Ev (session_request "GET"
                (SyncRepos.AzureDevOps.base_url self +:+ "/_apis/projects?api-version=7.1")
                None) r] /\
    res = Val l /\
    (request_ok r = false -> l = []) /\
    (forall response,
       r = Val response -> request_ok r = true ->
       match body response with
       | BodyProjects value => Forall2 project_of_json value l
       | _ => l = []
       end).
Proof.
  intros (r & tr' & -> & H). exists r. simpl in H.
  destruct r as [response|e]; simpl in H.
  - destruct (request_ok (Val response)) eqn:Hok.
    + rewrite (request_ok_Val _ Hok) in H. simpl in H.
      destruct (body response) as [| | |value|] eqn:Hbody;
        destruct H as [-> ->]; eexists; (split; [reflexivity|]);
        (split; [reflexivity|]); (split; [discriminate|]);
        intros response' [= <-] _; rewrite Hbody; try reflexivity.
      apply project_of_json_map.
    + rewrite (request_not_ok_Val _ Hok) in H. destruct H as [-> ->].
      exists []. split; [reflexivity|]. split; [reflexivity|].
      split; [reflexivity|]. intros response' _ [=].
  - destruct H as [-> ->]. exists []. split; [reflexivity|]. split; [reflexivity|].
    split; [reflexivity|]. intros response' [=].
Qed.

(* ===================================================================== *)
(** ** The counters of a sync and the calls that were made *)
(* ===================================================================== *)

Lemma count_app {A} (f : A -> bool) (l1 l2 : list A) :
  count f (l1 ++ l2) = count f l1 + count f l2.
Proof. unfold count. rewrite List.filter_app, length_app. lia. Qed.

Lemma truthy_as_truthy (a : option string) :
  truthy a = match as_truthy a with Some _ => true | None => false end.
Proof.
  destruct (as_truthy a) eqn:Ha.
  - apply as_truthy_Some_inv in Ha as [-> Ht]. exact Ht.
  - apply as_truthy_None in Ha. exact Ha.
Qed.

(** One turn of the loop: the counters move with the calls that succeeded,
    and each kind of call is made at most once. *)
Lemma process_project_calls config org_id apps c p tr c' :
  Runs (SyncRepos.Sync.process_project config org_id apps c p) tr (Val c') ->
  SyncRepos.created c' = SyncRepos.created c + count create_succeeded tr
  /\ SyncRepos.scanned c' = SyncRepos.scanned c + count scan_succeeded tr
  /\ 0 <= count is_create tr <= 1
  /\ 0 <= count is_scan tr <= 1.
Proof.
  intros H. apply process_project_runs in H as (r_url & H).
  destruct r_url as [reply|e]; simpl in H; [|destruct H as [_ [=]]].
  destruct (as_truthy reply) as [clone_url|].
  - destruct (as_truthy (apps !! SyncRepos.project_name p)) as [app_id|].
    + destruct H as (r_scan & -> & [= ->]).
      destruct r_scan as [[|]|e]; unfold count; simpl; repeat split; lia.
    + destruct H as (r_create & H). destruct r_create as [a|e].
      * pose proof (truthy_as_truthy a) as Hcf.
        destruct (as_truthy a) as [app_id|].
        -- destruct H as (r_scan & -> & [= ->]).
           destruct r_scan as [[|]|e]; unfold count; simpl; rewrite Hcf; simpl;
             repeat split; lia.
        -- destruct H as [-> [= ->]]. unfold count. simpl. rewrite Hcf. simpl.
           repeat split; lia.
      * destruct H as [-> [= ->]]. unfold count. simpl. repeat split; lia.
  - destruct H as [-> [= ->]]. unfold count. simpl. repeat split; lia.
Qed.

Lemma process_loop_calls config org_id apps l c trs c' :
  LoopRuns (SyncRepos.Sync.process_project config org_id apps) l c trs c' ->
  SyncRepos.created c' = SyncRepos.created c + count create_succeeded (concat trs)
  /\ SyncRepos.scanned c' = SyncRepos.scanned c + count scan_succeeded (concat trs)
  /\ 0 <= count is_create (concat trs) <= Z.of_nat (length l)
  /\ 0 <= count is_scan (concat trs) <= Z.of_nat (length l).
Proof.
  induction 1 as [c|p l c tr c1 trs c' Hstep Hloop IH].
  - unfold count. simpl. lia.
  - apply process_project_calls in Hstep. simpl concat. rewrite !count_app.
    simpl length. lia.
Qed.

(** X11. In every run of [Sync.sync] that returns normally, [created] is
    the number of creation calls that returned a non-empty id and
    [scanned] is the number of scan calls that returned true; and there
    are at most as many creation calls, and as many scan calls, as matched
    projects: no call is repeated. *)
Theorem sync_counters_count_successful_calls (config : SyncRepos.Config)
    (org_id chinese_name : string) tr c :
  Runs (SyncRepos.Sync.sync config org_id chinese_name) tr (Val c) ->
  exists all_projects tr',
    tr = Ev SyncRepos.AzureDevOps_get_projects (Val all_projects) :: tr' /\
    let n := Z.of_nat (length (SyncRepos.Sync.matched_projects all_projects chinese_name)) in
    SyncRepos.created c = count create_succeeded tr'
    /\ SyncRepos.scanned c = count scan_succeeded tr'
    /\ SyncRepos.errors c = n - count scan_succeeded tr'
    /\ 0 <= count is_create tr' <= n
    /\ 0 <= count is_scan tr' <= n.
Proof.
  intros H. apply sync_runs in H as (all_projects & tr' & -> & H).
  exists all_projects, tr'. split; [reflexivity|]. simpl in *.
  destruct H as [(Hm & -> & ->) | (_ & apps & trs & -> & Hloop)].
  - rewrite Hm. unfold count. simpl. lia.
  - pose proof (process_project_loop _ _ _ _ _ _ _ Hloop) as (_ & Hsum & _).
    apply process_loop_calls in Hloop.
    change (Ev (SyncRepos.IQ_get_applications org_id) (Val apps) :: concat trs)
      with ([Ev (SyncRepos.IQ_get_applications org_id) (Val apps)] ++ concat trs).
    rewrite !count_app.
    assert (H1 : count create_succeeded
                   [Ev (SyncRepos.IQ_get_applications org_id) (Val apps)] = 0)
      by reflexivity.
    assert (H2 : count scan_succeeded
                   [Ev (SyncRepos.IQ_get_applications org_id) (Val apps)] = 0)
      by reflexivity.
    assert (H3 : count is_create
                   [Ev (SyncRepos.IQ_get_applications org_id) (Val apps)] = 0)
      by reflexivity.
    assert (H4 : count is_scan
                   [Ev (SyncRepos.IQ_get_applications org_id) (Val apps)] = 0)
      by reflexivity.
    rewrite H1, H2, H3, H4. simpl in *. lia.
Qed.

Lemma process_loop_raises config org_id apps l c tr e :
  Runs (for_each (SyncRepos.Sync.process_project config org_id apps) l c) tr (Raise e) ->
  exists tr0 ev, tr = tr0 ++ [ev] /\ uncaught_raise ev = Some e.
Proof.
  revert c tr. induction l as [|p l IH]; intros c tr H.
  - destruct H as [_ [=]].
  - rewrite for_each_cons in H. apply Runs_bind in H as (tr1 & r & tr2 & -> & H1 & H2).
    destruct r as [c1|e'].
    + apply IH in H2 as (tr0 & ev & -> & Hev). exists (tr1 ++ tr0), ev.
      rewrite app_assoc. auto.
    + destruct H2 as [-> [= ->]].
      apply process_project_runs in H1 as (r_url & H1).
      destruct r_url as [reply|e'']; simpl in H1.
      * destruct (as_truthy reply).
        -- destruct (as_truthy (apps !! SyncRepos.project_name p)).
           ++ destruct H1 as (r_scan & _ & [=]).
           ++ destruct H1 as (r_create & H1). destruct r_create as [a|e3].
              ** destruct (as_truthy a); [destruct H1 as (r_scan & _ & [=])
                                         | destruct H1 as [_ [=]]].
              ** destruct H1 as [_ [=]].
        -- destruct H1 as [_ [=]].
      * destruct H1 as [-> [= ->]]. eexists [], _. split; reflexivity.
Qed.

(** X12. [Sync.sync] raises only through the three calls it makes outside
    every [try]: listing the projects, listing the applications, and
    asking for the repository of a project.  The call that raised is the
    last call of the run, and [sync] raises its exception: an exception of
    [create_application] or of [scan_application] never leaves [sync]. *)
Theorem sync_raises_only_from_uncaught_calls (config : SyncRepos.Config)
    (org_id chinese_name : string) tr e :
  Runs (SyncRepos.Sync.sync config org_id chinese_name) tr (Raise e) ->
  exists tr0 ev, tr = tr0 ++ [ev] /\ uncaught_raise ev = Some e.
Proof.
  unfold SyncRepos.Sync.sync. intros (r & tr1 & -> & H).
  destruct r as [all_projects|e1]; simpl in H.
  - destruct (SyncRepos.Sync.matched_projects all_projects chinese_name) as [|p l].
    + destruct H as [_ [=]].
    + simpl in H. destruct H as (r & tr2 & -> & H).
      destruct r as [apps|e2].
      * change (Runs (for_each (SyncRepos.Sync.process_project config org_id apps)
                        (p :: l) SyncRepos.zero) tr2 (Raise e)) in H.
        apply process_loop_raises in H as (tr0 & ev & -> & Hev).
        exists (Ev SyncRepos.AzureDevOps_get_projects (Val all_projects)
                  :: Ev (SyncRepos.IQ_get_applications org_id) (Val apps) :: tr0), ev.
        auto.
      * destruct H as [-> [= ->]].
        eexists [Ev SyncRepos.AzureDevOps_get_projects (Val all_projects)], _.
        split; reflexivity.
  - destruct H as [-> [= ->]]. eexists [], _. split; reflexivity.
Qed.

(** X19. The marker is searched as a substring, so the display name is
    matched as a prefix: a project marked for a display name that
    continues the name of another organization is selected for that
    organization too. *)
Theorem marker_matches_longer_names (all_projects : list SyncRepos.Project)
    (chinese_name suffix : string) (p : SyncRepos.Project) :
  In p (SyncRepos.Sync.matched_projects all_projects (chinese_name +:+ suffix)) ->
  In p (SyncRepos.Sync.matched_projects all_projects chinese_name).
Proof.
  rewrite !matched_projects_In. intros (Hin & d & pre & post & Hd & ->).
  split; [exact Hin|]. eexists _, pre, (suffix +:+ post). split; [exact Hd|].
  rewrite append_assoc. reflexivity.
Qed.

(* ===================================================================== *)
(** ** Organizations whose processing raises *)
(* ===================================================================== *)

Lemma sync_tally_general total (rs : list (Res SyncRepos.Counters)) :
  foldl sync_tally total rs =
  {| SyncRepos.created :=
       SyncRepos.created total + sumZ (map SyncRepos.created (returned_results rs));
     SyncRepos.scanned :=
       SyncRepos.scanned total + sumZ (map SyncRepos.scanned (returned_results rs));
     SyncRepos.errors :=
       SyncRepos.errors total + sumZ (map SyncRepos.errors (returned_results rs))
       + raised_count rs |}.
Proof.
  revert total. induction rs as [|r rs IH]; intros total.
  - destruct total. unfold raised_count. simpl. f_equal; lia.
  - simpl foldl. rewrite IH. unfold raised_count, sumZ.
    destruct r as [result|e]; simpl; f_equal; lia.
Qed.

Lemma cleanup_tally_general total (rs : list (Res CleanupTool.Counters)) :
  foldl cleanup_tally total rs =
  {| CleanupTool.deleted :=
       CleanupTool.deleted total + sumZ (map CleanupTool.deleted (returned_results rs));
     CleanupTool.errors :=
       CleanupTool.errors total + sumZ (map CleanupTool.errors (returned_results rs))
       + raised_count rs |}.
Proof.
  revert total. induction rs as [|r rs IH]; intros total.
  - destruct total. unfold raised_count. simpl. f_equal; lia.
  - simpl foldl. rewrite IH. unfold raised_count, sumZ.
    destruct r as [result|e]; simpl; f_equal; lia.
Qed.

(** X13. The run loop of either tool isolates the organizations: an
    organization whose call raises adds exactly 1 to the [errors] of the
    total and nothing else, and the loop goes on with the next
    organization.  So the total is the field-wise sum of the results that
    were returned, plus, in [errors], the number of calls that raised. *)
Theorem run_loop_counts_raising_organizations (getenv : string -> option string)
    (DEBUG : bool) (fs : string -> FileContent Org) :
  (forall tr total,
     Runs (SyncRepos.sync_repos_main getenv DEBUG fs) tr (Val (Some total)) ->
     exists config orgs runs,
       SyncRepos.load_config getenv = Val config /\
       SyncRepos.load_organizations DEBUG fs = Val orgs /\
       Forall2 (sync_org_run config) orgs runs /\
       tr = concat (map fst runs) /\
       let results := returned_results (map snd runs) in
       SyncRepos.created total = sumZ (map SyncRepos.created results) /\
       SyncRepos.scanned total = sumZ (map SyncRepos.scanned results) /\
       SyncRepos.errors total =
         sumZ (map SyncRepos.errors results) + raised_count (map snd runs))
  /\ (forall tr total,
        Runs (CleanupTool.cleanup_main getenv DEBUG fs) tr (Val (Some total)) ->
        exists config orgs runs,
          CleanupTool.load_config getenv = Val config /\
          CleanupTool.load_organizations DEBUG fs = Val orgs /\
          Forall2 (cleanup_org_run config) orgs runs /\
          tr = concat (map fst runs) /\
          let results := returned_results (map snd runs) in
          CleanupTool.deleted total = sumZ (map CleanupTool.deleted results) /\
          CleanupTool.errors total =
            sumZ (map CleanupTool.errors results) + raised_count (map snd runs)).
Proof.
  split.
  - intros tr total H. unfold SyncRepos.sync_repos_main in H.
    destruct (SyncRepos.load_config getenv) as [config|e]; [|destruct H as [_ [=]]].
    destruct (SyncRepos.load_organizations DEBUG fs) as [orgs|e] eqn:Hload;
      [|destruct H as [_ [=]]].
    apply Runs_bind in H as (tr1 & r & tr2 & -> & H1 & H2).
    destruct r as [total1|e]; destruct H2 as [-> [= <-]].
    apply Runs_for_each in H1 as (trs & -> & Hloop).
    eapply LoopRuns_results in Hloop as (runs & Hruns & -> & ->);
      [|intros s x tr s1; apply sync_main_step|exact (load_organizations_truthy _ _ _ Hload)].
    exists config, orgs, runs. split; [reflexivity|]. split; [reflexivity|].
    split; [exact Hruns|]. split; [apply app_nil_r|].
    rewrite sync_tally_general. simpl. repeat split; lia.
  - intros tr total H. unfold CleanupTool.cleanup_main in H.
    destruct (CleanupTool.load_config getenv) as [config|e]; [|destruct H as [_ [=]]].
    destruct (CleanupTool.load_organizations DEBUG fs) as [orgs|e] eqn:Hload;
      [|destruct H as [_ [=]]].
    apply Runs_bind in H as (tr1 & r & tr2 & -> & H1 & H2).
    destruct r as [total1|e]; destruct H2 as [-> [= <-]].
    apply Runs_for_each in H1 as (trs & -> & Hloop).
    eapply LoopRuns_results in Hloop as (runs & Hruns & -> & ->);
      [|intros s x tr s1; apply cleanup_main_step
       |exact (load_organizations_truthy _ _ _ Hload)].
    exists config, orgs, runs. split; [reflexivity|]. split; [reflexivity|].
    split; [exact Hruns|]. split; [apply app_nil_r|].
    rewrite cleanup_tally_general. simpl. repeat split; lia.
Qed.

Lemma load_config_missing (getenv : string -> option string) (k : string) :
  In k SyncRepos.required_keys -> truthy (getenv k) = false ->
  exists e, SyncRepos.load_config getenv = Raise e.
Proof.
  intros Hk Ht. unfold SyncRepos.load_config.
  destruct (List.filter _ SyncRepos.required_keys) as [|k0 missing] eqn:Hf; [|eauto].
  assert (Hin : In k (List.filter (fun k => negb (truthy (getenv k)))
                        SyncRepos.required_keys)).
  { apply filter_In. rewrite Ht. auto. }
  rewrite Hf in Hin. destruct Hin.
Qed.

Lemma cleanup_load_config_missing (getenv : string -> option string) (k : string) :
  In k CleanupTool.required_keys -> truthy (getenv k) = false ->
  exists e, CleanupTool.load_config getenv = Raise e.
Proof.
  intros Hk Ht. unfold CleanupTool.load_config.
  destruct (List.filter _ CleanupTool.required_keys) as [|k0 missing] eqn:Hf; [|eauto].
  assert (Hin : In k (List.filter (fun k => negb (truthy (getenv k)))
                        CleanupTool.required_keys)).
  { apply filter_In. rewrite Ht. auto. }
  rewrite Hf in Hin. destruct Hin.
Qed.

(** X20. When a required setting is unset or empty, the main function of
    either tool returns after the initialization failure without making
    any remote call, whatever the organization file holds. *)
Theorem missing_setting_no_remote_call (getenv : string -> option string) (DEBUG : bool)
    (fs : string -> FileContent Org) (k : string) :
  truthy (getenv k) = false ->
  (In k SyncRepos.required_keys ->
   SyncRepos.sync_repos_main getenv DEBUG fs = Ret (Val None))
  /\ (In k CleanupTool.required_keys ->
      CleanupTool.cleanup_main getenv DEBUG fs = Ret (Val None)).
Proof.
  intros Ht. split; intros Hk.
  - destruct (load_config_missing getenv k Hk Ht) as [e He].
    unfold SyncRepos.sync_repos_main. rewrite He. reflexivity.
  - destruct (cleanup_load_config_missing getenv k Hk Ht) as [e He].
    unfold CleanupTool.cleanup_main. rewrite He. reflexivity.
Qed.

(* ===================================================================== *)
(** ** The decorator of the entry point *)
(* ===================================================================== *)

(** X22. [handle_main_execution] changes nothing to what the decorated
    function does: the same calls are made, the same result is returned,
    and the same exception is raised.  So [run_sync_tool] has exactly the
    runs of [sync_repos_main]. *)
Theorem handle_main_execution_transparent :
  (forall (E : Type -> Type) (A : Type) (func : Prog E (Res A)) tr r,
     Runs (ErrorHandler.handle_main_execution func) tr r <-> Runs func tr r)
  /\ (forall getenv DEBUG fs tr r,
        Runs (run_sync_tool getenv DEBUG fs) tr r <->
        Runs (SyncRepos.sync_repos_main getenv DEBUG fs) tr r).
Proof.
  assert (H : forall (E : Type -> Type) (A : Type) (func : Prog E (Res A)) tr r,
             Runs (ErrorHandler.handle_main_execution func) tr r <-> Runs func tr r).
  { intros E A func tr r. unfold ErrorHandler.handle_main_execution.
    rewrite Runs_bind. split.
    - intros (tr1 & a & tr2 & -> & H1 & H2).
      destruct a; destruct H2 as [-> ->]; rewrite app_nil_r; exact H1.
    - intros H. exists tr, r, []. rewrite app_nil_r. split; [reflexivity|].
      split; [exact H|]. destruct r; simpl; auto. }
  split; [exact H|]. intros getenv DEBUG fs tr r. apply H.
Qed.

(* ===================================================================== *)
(** ** The base URL and the public id *)
(* ===================================================================== *)

Lemma append_nil_r (s : string) : s +:+ "" = s.
Proof. induction s as [|a s IH]; [reflexivity|]. rewrite append_cons, IH. reflexivity. Qed.

Lemma rstrip_slash_decompose (s : string) :
  exists n, s = rstrip_slash s +:+ slashes n.
Proof.
  induction s as [|a s (n & IH)]; [exists O; reflexivity|]. simpl.
  destruct (rstrip_slash s) as [|c r] eqn:Hr.
  - destruct (decide (a = "/"%char)) as [->|Hne].
    + exists (S n). rewrite IH at 1. reflexivity.
    + exists n. rewrite IH at 1. reflexivity.
  - exists n. rewrite IH at 1. reflexivity.
Qed.

Lemma append_slash_nonempty (t : string) : t +:+ "/" <> "".
Proof. destruct t; discriminate. Qed.

Lemma rstrip_slash_no_trailing (s t : string) : rstrip_slash s <> t +:+ "/".
Proof.
  revert t. induction s as [|a s IH]; intros t; simpl.
  - intros H. symmetry in H. exact (append_slash_nonempty _ H).
  - destruct (rstrip_slash s) as [|c r] eqn:Hr.
    + destruct (decide (a = "/"%char)) as [->|Hne].
      * intros H. symmetry in H. exact (append_slash_nonempty _ H).
      * destruct t as [|b t]; [intros [= H]; congruence|].
        rewrite append_cons. intros [= _ H]. exact (append_slash_nonempty _ (eq_sym H)).
    + destruct t as [|b t]; [discriminate|].
      rewrite append_cons. intros [= _ H]. exact (IH t H).
Qed.

Lemma rstrip_slash_fixed (s : string) :
  (forall t, s <> t +:+ "/") -> rstrip_slash s = s.
Proof.
  induction s as [|a s IH]; intros Hs; [reflexivity|]. simpl.
  assert (Hs' : forall t, s <> t +:+ "/").
  { intros t ->. apply (Hs (String a t)). reflexivity. }
  rewrite (IH Hs'). destruct s as [|c r]; [|reflexivity].
  destruct (decide (a = "/"%char)) as [->|Hne]; [|reflexivity].
  destruct (Hs ""). reflexivity.
Qed.

(** X17. The scan-server client of either tool keeps as base URL the
    configured URL without its trailing slashes: the configured URL is the
    base URL followed by slashes only, and the base URL does not end with a
    slash, so that an endpoint is joined to it with a single slash.
    Building the client from its own base URL gives the same base URL. *)
Theorem base_url_has_no_trailing_slash (url username password : string) :
  let base := SyncRepos.IQ.base_url (SyncRepos.IQ.__init__ url username password) in
  CleanupTool.IQ.base_url (CleanupTool.IQ.__init__ url username password) = base
  /\ (exists n, url = base +:+ slashes n)
  /\ (forall t, base <> t +:+ "/")
  /\ SyncRepos.IQ.base_url (SyncRepos.IQ.__init__ base username password) = base.
Proof.
  simpl. split; [reflexivity|]. split; [apply rstrip_slash_decompose|].
  split; [apply rstrip_slash_no_trailing|].
  apply rstrip_slash_fixed. apply rstrip_slash_no_trailing.
Qed.





(* ===================================================================== *)
(** ** The requests of the two tools *)
(* ===================================================================== *)

Lemma Runs_interp_bind {E F A B} (h : forall X, E X -> Prog F X) (p : Prog E A)
    (f : A -> Prog E B) tr b :
  Runs (interp h (bind p f)) tr b ->
  exists tr1 a tr2,
    tr = tr1 ++ tr2 /\ Runs (interp h p) tr1 a /\ Runs (interp h (f a)) tr2 b.
Proof.
  revert tr. induction p as [a|X e k IH]; intros tr; simpl.
  - intros H. exists [], a, tr. auto.
  - intros H. apply Runs_bind in H as (seg & x & tr' & -> & Hseg & H).
    apply IH in H as (tr1 & a & tr2 & -> & H1 & H2).
    exists (seg ++ tr1), a, tr2. split; [apply app_assoc|]. split; [|exact H2].
    apply Runs_bind. eauto 6.
Qed.

Ltac only_get_post :=
  repeat (constructor; [first [left; reflexivity | right; reflexivity]|]);
  constructor.

(** The methods of the clients of [Sync] send GET and POST requests only. *)
Lemma handler_methods (lower : string -> string) (config : SyncRepos.Config)
    X (e : SyncRepos.Call X) seg (x : X) :
  Runs (SyncRepos.handler lower config X e) seg x ->
  Forall (fun ev => http_method ev = "GET" \/ http_method ev = "POST") seg.
Proof.
  destruct e; simpl; intros (r & tr' & -> & H); simpl in H.
  - destruct r as [response|err]; simpl in H.
    + destruct (raise_for_status response) as [resp|err]; simpl in H;
        [destruct (body resp)|]; destruct H as [-> _]; only_get_post.
    + destruct H as [-> _]. only_get_post.
  - destruct r as [response|err]; simpl in H.
    + destruct (raise_for_status response) as [resp|err]; simpl in H;
        [destruct (body resp) as [| | | |[|u l]]|]; destruct H as [-> _]; only_get_post.
    + destruct H as [-> _]. only_get_post.
  - destruct r as [response|err]; simpl in H.
    + destruct (raise_for_status response) as [resp|err]; simpl in H;
        [destruct (body resp)|]; destruct H as [-> _]; only_get_post.
    + destruct H as [-> _]. only_get_post.
  - destruct r as [response|err]; simpl in H.
    + destruct (raise_for_status response) as [resp|err]; simpl in H.
      * destruct (body resp); try (destruct H as [-> _]; only_get_post).
        destruct H as (r2 & tr2 & -> & H). simpl in H.
        destruct r2 as [resp2|err2]; simpl in H;
          [destruct (raise_for_status resp2)|]; destruct H as [-> _]; only_get_post.
      * destruct H as [-> _]. only_get_post.
    + destruct H as [-> _]. only_get_post.
  - destruct r as [response|err]; simpl in H.
    + destruct (raise_for_status response) as [resp|err]; simpl in H;
        destruct H as [-> _]; only_get_post.
    + destruct H as [-> _]. only_get_post.
Qed.

(** X15. The sync tool only reads and creates: every request that
    [Sync.sync] sends through its clients is a GET or a POST, so that it
    never sends a DELETE, whatever the servers answer. *)
Theorem sync_http_sends_get_and_post_only (lower : string -> string)
    (config : SyncRepos.Config) (org_id chinese_name : string) tr res :
  Runs (SyncRepos.sync_http lower config org_id chinese_name) tr res ->
  Forall (fun ev => (http_method ev = "GET" \/ http_method ev = "POST")
                    /\ http_method ev <> "DELETE") tr.
Proof.
  intros H. apply Runs_interp in H as (mtr & _ & Hh).
  induction Hh as [|X e x seg mtr tr Hseg _ IH]; [constructor|].
  apply Forall_app. split; [|exact IH].
  apply handler_methods in Hseg. eapply Forall_impl; [exact Hseg|].
  intros ev [Hm|Hm]; rewrite Hm; split; auto; discriminate.
Qed.

(** X10. A project listing that fails is not told from an empty one: when
    the request for the projects fails, or lists no project, [Sync.sync]
    with its clients returns zero counts, without any error and without
    any further request. *)
Theorem failed_project_listing_gives_zero_counts (lower : string -> string)
    (config : SyncRepos.Config) (org_id chinese_name : string) tr res :
  Runs (SyncRepos.sync_http lower config org_id chinese_name) tr res ->
  exists r tr1,
    tr = Ev (session_request "GET"
               (("https://dev.azure.com/" +:+ SyncRepos.AZURE_DEVOPS_ORGANIZATION config)
                +:+ "/_apis/projects?api-version=7.1") None) r :: tr1 /\
    (request_ok r = false -> tr1 = [] /\ res = Val SyncRepos.zero) /\
    (forall response,
       r = Val response -> body response = BodyProjects [] ->
       tr1 = [] /\ res = Val SyncRepos.zero).
Proof.
  unfold SyncRepos.sync_http, SyncRepos.Sync.sync. simpl.
  intros (r & tr1 & -> & H). exists r, tr1. split; [reflexivity|].
  destruct r as [response|e]; simpl in H.
  - destruct (request_ok (Val response)) eqn:Hok.
    + split; [discriminate|]. intros response' [= <-] Hbody.
      rewrite (request_ok_Val _ Hok) in H. simpl in H. rewrite Hbody in H. exact H.
    + rewrite (request_not_ok_Val _ Hok) in H. simpl in H.
      split; [intros _; exact H|]. intros response' [= <-] Hbody. exact H.
  - split; [intros _; exact H|]. intros response' [=].
Qed.

(** One turn of the cleanup loop with the client of [Cleanup]: one DELETE
    request, counted as a deletion exactly when it is answered 204. *)
Lemma delete_step_http (config : CleanupTool.Config) c app tr res :
  Runs (interp (CleanupTool.handler config) (CleanupTool.Cleanup.delete_step c app)) tr res ->
  exists r,
    tr = [Ev (session_request "DELETE"
                (rstrip_slash (CleanupTool.IQ_SERVER_URL config) +:+
                 "/api/v2/applications/" +:+ app_id app) None) r] /\
    res = Val (if deleted_ok r then CleanupTool.inc_deleted c
               else CleanupTool.inc_errors c).
Proof.
  unfold CleanupTool.Cleanup.delete_step. simpl.
  intros (r & tr' & -> & H). exists r. simpl in H.
  destruct r as [response|e]; simpl in H.
  - unfold deleted_ok. destruct (request_ok (Val response)) eqn:Hok.
    + rewrite (request_ok_Val _ Hok) in H. simpl in H.
      destruct (status_code response =? 204); destruct H as [-> ->]; auto.
    + rewrite (request_not_ok_Val _ Hok) in H. simpl in H.
      destruct H as [-> ->]. auto.
  - destruct H as [-> ->]. auto.
Qed.

Lemma delete_loop_http (config : CleanupTool.Config) apps c tr res :
  Runs (interp (CleanupTool.handler config)
          (for_each CleanupTool.Cleanup.delete_step apps c)) tr res ->
  exists replies,
    length replies = length apps /\
    tr = delete_requests (rstrip_slash (CleanupTool.IQ_SERVER_URL config)) apps replies /\
    res = Val {| CleanupTool.deleted := CleanupTool.deleted c + count deleted_ok replies;
                 CleanupTool.errors :=
                   CleanupTool.errors c
                   + (Z.of_nat (length apps) - count deleted_ok replies) |}.
Proof.
  revert c tr. induction apps as [|app apps IH]; intros c tr H.
  - destruct H as [-> ->]. exists []. split; [reflexivity|]. split; [reflexivity|].
    destruct c as [d e]. unfold count. simpl. do 2 f_equal; lia.
  - rewrite for_each_cons in H.
    apply Runs_interp_bind in H as (tr1 & r & tr2 & -> & H1 & H2).
    apply delete_step_http in H1 as (r0 & -> & ->).
    apply IH in H2 as (replies & Hlen & -> & ->).
    exists (r0 :: replies). split; [simpl; congruence|]. split; [reflexivity|].
    unfold count. simpl List.filter. simpl length.
    destruct (deleted_ok r0); simpl; do 2 f_equal; lia.
Qed.

(** X16. [Cleanup.cleanup] with the client that [Cleanup] builds never
    raises.  It sends the GET that lists the applications of the
    organization, then one DELETE per listed application, in the order of
    the listing and whatever the earlier answers were, and nothing else.
    [deleted] is the number of DELETE requests answered 204, and [errors]
    the number of the others.  When the listing fails or is unreadable,
    no DELETE is sent and both counters are zero. *)
Theorem cleanup_http_requests (config : CleanupTool.Config)
    (org_id chinese_name : string) tr res :
  Runs (cleanup_http config org_id chinese_name) tr res ->
  exists r replies,
    let base := rstrip_slash (CleanupTool.IQ_SERVER_URL config) in
    let apps := listed_applications r in
    tr = Ev (session_request "GET"
               (base +:+ "/api/v2/applications/organization/" +:+ org_id) None) r
         :: delete_requests base apps replies /\
    length replies = length apps /\
    res = Val {| CleanupTool.deleted := count deleted_ok replies;
                 CleanupTool.errors :=
                   Z.of_nat (length apps) - count deleted_ok replies |}.
Proof.
  unfold cleanup_http, CleanupTool.Cleanup.cleanup. simpl.
  intros (r & tr1 & -> & H). exists r.
  assert (Hloop : Runs (interp (CleanupTool.handler config)
                          match listed_applications r with
                          | [] => Ret (Val CleanupTool.zero)
                          | _ => for_each CleanupTool.Cleanup.delete_step
                                   (listed_applications r) CleanupTool.zero
                          end) tr1 res).
  { destruct r as [response|e]; simpl in H.
    - unfold listed_applications. destruct (request_ok (Val response)) eqn:Hok.
      + rewrite (request_ok_Val _ Hok) in H. simpl in H.
        destruct (body response); exact H.
      + rewrite (request_not_ok_Val _ Hok) in H. exact H.
    - exact H. }
  clear H. destruct (listed_applications r) as [|app apps].
  - destruct Hloop as [-> ->]. exists []. auto.
  - apply delete_loop_http in Hloop as (replies & Hlen & -> & ->).
    exists replies. auto.
Qed.

(* ===================================================================== *)
(** ** The further properties at the example inputs *)
(* ===================================================================== *)

Lemma example_getenv_required (k : string) :
  In k SyncRepos.required_keys -> truthy (example_getenv k) = true.
Proof.
  intros Hk. simpl in Hk.
  repeat (destruct Hk as [<-|Hk]; [vm_compute; reflexivity|]). destruct Hk.
Qed.

Lemma load_config_outcome_witness :
  (forall k, In k SyncRepos.required_keys -> truthy (example_getenv k) = true)
  /\ exists config,
       SyncRepos.load_config example_getenv = Val config /\
       SyncRepos.DEFAULT_BRANCH config = "main" /\
       SyncRepos.STAGE_ID config = "source".
Proof.
  split; [exact example_getenv_required|].
  destruct (load_config_outcome example_getenv) as [H _].
  destruct (H example_getenv_required)
    as (config & Hload & _ & _ & _ & _ & _ & Hbranch & _ & Hstage & _).
  exists config. split; [exact Hload|].
  split; [apply Hbranch | apply Hstage]; vm_compute; reflexivity.
Defined.

Lemma cleanup_load_config_outcome_witness :
  truthy (empty_getenv "IQ_PASSWORD") = false
  /\ exists missing,
       CleanupTool.load_config empty_getenv =
         Raise (ValueError ("Missing required environment variables: "
                            +:+ join_comma missing)) /\
       sublist missing CleanupTool.required_keys.
Proof.
  split; [reflexivity|].
  destruct (cleanup_load_config_outcome empty_getenv) as (_ & H & _).
  destruct (H "IQ_PASSWORD") as (missing & Hload & Hsub & _).
  - simpl. tauto.
  - reflexivity.
  - exists missing. split; [exact Hload | exact Hsub].
Defined.

Lemma load_organizations_outcomes_witness :
  SyncRepos.load_organizations false example_fs = Val [org_alpha; org_gamma]
  /\ [org_alpha; org_gamma] <> []
  /\ forall o, In o [org_alpha; org_gamma] -> valid_org o.
Proof.
  split; [reflexivity|].
  destruct (load_organizations_outcomes false example_fs) as (_ & _ & _ & H).
  apply (H [org_alpha; org_gamma]). left. reflexivity.
Defined.

Lemma request_sends_once_and_checks_status_witness :
  Runs (SyncRepos.IQ._request example_iq "GET" "/api/v2/applications/organization/42" None)
    not_found_trace (Raise (HTTPError 404))
  /\ exists r,
       not_found_trace =
         [Ev (session_request "GET"
                (SyncRepos.IQ.base_url example_iq +:+
                 "/api/v2/applications/organization/42") None) r].
Proof.
  split; [run_trace|].
  destruct (request_sends_once_and_checks_status "GET"
              "/api/v2/applications/organization/42" None not_found_trace
              (Raise (HTTPError 404))) as [H _].
  destruct (H example_iq) as (r & Htr & _); [run_trace|].
  exists r. exact Htr.
Defined.

Lemma get_applications_last_entry_wins_witness :
  Runs (SyncRepos.IQ.get_applications example_iq "42") duplicate_listing_trace
    (Val (SyncRepos.IQ.dict_of_applications duplicate_listing))
  /\ exists m,
       Val (SyncRepos.IQ.dict_of_applications duplicate_listing) = Val m /\
       m !! "Repo A" = Some "new".
Proof.
  split; [run_trace|].
  destruct (get_applications_last_entry_wins example_iq "42" duplicate_listing_trace
              (Val (SyncRepos.IQ.dict_of_applications duplicate_listing)))
    as (r & m & _ & Hres & _); [run_trace|].
  exists m. split; [exact Hres|]. injection Hres as <-. vm_compute. reflexivity.
Defined.

Lemma scan_application_true_iff_200_witness :
  Runs (SyncRepos.IQ.scan_application example_iq "app-1" "main" "source")
    scan_created_trace (Val false)
  /\ exists b : bool, Val false = Val b.
Proof.
  split; [run_trace|].
  destruct (scan_application_true_iff_200 example_iq "app-1" "main" "source"
              scan_created_trace (Val false)) as (r & b & _ & Hres & _); [run_trace|].
  exists b. exact Hres.
Defined.

Lemma delete_application_true_iff_204_witness :
  Runs (CleanupTool.IQ.delete_application example_cleanup_iq "app-1")
    delete_ok_trace (Val false)
  /\ exists b : bool, Val false = Val b.
Proof.
  split; [run_trace|].
  destruct (delete_application_true_iff_204 example_cleanup_iq "app-1"
              delete_ok_trace (Val false)) as (r & b & _ & Hres & _); [run_trace|].
  exists b. exact Hres.
Defined.

Lemma get_repo_url_takes_first_witness :
  Runs (SyncRepos.AzureDevOps.get_repo_url example_azure "p1")
    two_repositories_trace (Val (Some example_url))
  /\ exists o : option string, Val (Some example_url) = Val o.
Proof.
  split; [run_trace|].
  destruct (get_repo_url_takes_first example_azure "p1" two_repositories_trace
              (Val (Some example_url))) as (r & o & _ & Hres & _); [run_trace|].
  exists o. exact Hres.
Defined.

Lemma get_projects_normalizes_witness :
  Runs (SyncRepos.AzureDevOps.get_projects example_azure) projects_trace
    (Val [ {| SyncRepos.project_id := "p1"; SyncRepos.project_name := "Repo A";
              SyncRepos.project_description := Some "" |};
           {| SyncRepos.project_id := "p2"; SyncRepos.project_name := "Repo B";
              SyncRepos.project_description := None |} ])
  /\ exists r : Res Response,
       projects_trace =
         [Ev (session_request "GET"
                (SyncRepos.AzureDevOps.base_url example_azure +:+
                 "/_apis/projects?api-version=7.1") None) r].
Proof.
  split; [run_trace|].
  destruct (get_projects_normalizes example_azure projects_trace
              (Val [ {| SyncRepos.project_id := "p1"; SyncRepos.project_name := "Repo A";
                        SyncRepos.project_description := Some "" |};
                     {| SyncRepos.project_id := "p2"; SyncRepos.project_name := "Repo B";
                        SyncRepos.project_description := None |} ]))
    as (r & l & Htr & _); [run_trace|].
  exists r. exact Htr.
Defined.

Lemma failed_project_listing_gives_zero_counts_witness :
  Runs (SyncRepos.sync_http ascii_lower example_config "42" "Alpha")
    refused_projects_trace (Val SyncRepos.zero)
  /\ exists (r : Res Response) (tr1 : Trace Http),
       refused_projects_trace =
         Ev (session_request "GET"
               (("https://dev.azure.com/"
                 +:+ SyncRepos.AZURE_DEVOPS_ORGANIZATION example_config)
                +:+ "/_apis/projects?api-version=7.1") None) r :: tr1.
Proof.
  split; [run_trace|].
  destruct (failed_project_listing_gives_zero_counts ascii_lower example_config "42"
              "Alpha" refused_projects_trace (Val SyncRepos.zero))
    as (r & tr1 & Htr & _); [run_trace|].
  exists r, tr1. exact Htr.
Defined.

Lemma sync_counters_count_successful_calls_witness :
  Runs (SyncRepos.Sync.sync example_config "42" "Alpha") example_sync_trace
    (Val {| SyncRepos.created := 1; SyncRepos.scanned := 1; SyncRepos.errors := 0 |})
  /\ exists all_projects tr',
       example_sync_trace =
         Ev SyncRepos.AzureDevOps_get_projects (Val all_projects) :: tr' /\
       1 = count create_succeeded tr' /\ 1 = count scan_succeeded tr'.
Proof.
  split; [run_trace|].
  destruct (sync_counters_count_successful_calls example_config "42" "Alpha"
              example_sync_trace
              {| SyncRepos.created := 1; SyncRepos.scanned := 1; SyncRepos.errors := 0 |})
    as (all_projects & tr' & Htr & Hc & Hs & _); [run_trace|].
  exists all_projects, tr'. auto.
Defined.

Lemma sync_raises_only_from_uncaught_calls_witness :
  Runs (SyncRepos.Sync.sync example_config "42" "Alpha") aborted_sync_trace
    (Raise (OtherException "boom"))
  /\ exists tr0 ev,
       aborted_sync_trace = tr0 ++ [ev] /\
       uncaught_raise ev = Some (OtherException "boom").
Proof.
  split; [run_trace|].
  apply (sync_raises_only_from_uncaught_calls example_config "42" "Alpha").
  run_trace.
Defined.

Lemma run_loop_counts_raising_organizations_witness :
  Runs (SyncRepos.sync_repos_main example_getenv false example_fs) faulty_main_trace
    (Val (Some {| SyncRepos.created := 1; SyncRepos.scanned := 1;
                  SyncRepos.errors := 1 |}))
  /\ exists runs : list (Trace SyncRepos.Call * Res SyncRepos.Counters),
       faulty_main_trace = concat (map fst runs) /\
       1 = sumZ (map SyncRepos.errors (returned_results (map snd runs)))
           + raised_count (map snd runs).
Proof.
  split; [run_trace|].
  destruct (run_loop_counts_raising_organizations example_getenv false example_fs)
    as [H _].
  destruct (H faulty_main_trace
              {| SyncRepos.created := 1; SyncRepos.scanned := 1; SyncRepos.errors := 1 |})
    as (config & orgs & runs & _ & _ & _ & Htr & _ & _ & Herr); [run_trace|].
  exists runs. split; [exact Htr | exact Herr].
Defined.


Lemma sync_http_sends_get_and_post_only_witness :
  Runs (SyncRepos.sync_http ascii_lower example_config "42" "Alpha") example_http_trace
    (Val {| SyncRepos.created := 1; SyncRepos.scanned := 1; SyncRepos.errors := 0 |})
  /\ Forall (fun ev => (http_method ev = "GET" \/ http_method ev = "POST")
                       /\ http_method ev <> "DELETE") example_http_trace.
Proof.
  split; [run_trace|].
  apply (sync_http_sends_get_and_post_only ascii_lower example_config "42" "Alpha"
           example_http_trace
           (Val {| SyncRepos.created := 1; SyncRepos.scanned := 1;
                   SyncRepos.errors := 0 |})).
  run_trace.
Defined.

Lemma cleanup_http_requests_witness :
  Runs (cleanup_http example_cleanup_config "42" "Alpha") example_cleanup_http_trace
    (Val {| CleanupTool.deleted := 1; CleanupTool.errors := 1 |})
  /\ exists (r : Res Response) (replies : list (Res Response)),
       length replies = length (listed_applications r) /\
       Val {| CleanupTool.deleted := 1; CleanupTool.errors := 1 |} =
       Val {| CleanupTool.deleted := count deleted_ok replies;
              CleanupTool.errors :=
                Z.of_nat (length (listed_applications r)) - count deleted_ok replies |}.
Proof.
  split; [run_trace|].
  destruct (cleanup_http_requests example_cleanup_config "42" "Alpha"
              example_cleanup_http_trace
              (Val {| CleanupTool.deleted := 1; CleanupTool.errors := 1 |}))
    as (r & replies & _ & Hlen & Hres); [run_trace|].
  exists r, replies. split; [exact Hlen | exact Hres].
Defined.

Lemma base_url_has_no_trailing_slash_witness :
  SyncRepos.IQ.base_url (SyncRepos.IQ.__init__ "https://iq.example//" "admin" "secret")
  = "https://iq.example"
  /\ exists n,
       "https://iq.example//" =
       SyncRepos.IQ.base_url (SyncRepos.IQ.__init__ "https://iq.example//" "admin" "secret")
       +:+ slashes n.
Proof.
  split; [reflexivity|].
  destruct (base_url_has_no_trailing_slash "https://iq.example//" "admin" "secret")
    as (_ & H & _).
  exact H.
Defined.


Lemma marker_matches_longer_names_witness :
  In project_alpha2 (SyncRepos.Sync.matched_projects [project_alpha2] ("Alpha" +:+ "2"))
  /\ In project_alpha2 (SyncRepos.Sync.matched_projects [project_alpha2] "Alpha").
Proof.
  assert (H : In project_alpha2
                (SyncRepos.Sync.matched_projects [project_alpha2] ("Alpha" +:+ "2")))
    by (left; reflexivity).
  split; [exact H|].
  apply (marker_matches_longer_names [project_alpha2] "Alpha" "2" project_alpha2 H).
Defined.

Lemma missing_setting_no_remote_call_witness :
  truthy (empty_getenv "IQ_SERVER_URL") = false
  /\ SyncRepos.sync_repos_main empty_getenv false example_fs = Ret (Val None)
  /\ CleanupTool.cleanup_main empty_getenv false example_fs = Ret (Val None).
Proof.
  split; [reflexivity|].
  destruct (missing_setting_no_remote_call empty_getenv false example_fs "IQ_SERVER_URL")
    as [Hsync Hcleanup]; [reflexivity|].
  split; [apply Hsync | apply Hcleanup]; simpl; tauto.
Defined.

Lemma main_functions_return_witness :
  Runs (SyncRepos.sync_repos_main example_getenv false example_fs) faulty_main_trace
    (Val (Some {| SyncRepos.created := 1; SyncRepos.scanned := 1;
                  SyncRepos.errors := 1 |}))
  /\ returned (Val (Some {| SyncRepos.created := 1; SyncRepos.scanned := 1;
                            SyncRepos.errors := 1 |})) = true.
Proof.
  split; [run_trace|].
  destruct (main_functions_return example_getenv false example_fs) as [H _].
  apply (H faulty_main_trace). run_trace.
Defined.

Lemma handle_main_execution_transparent_witness :
  Runs (SyncRepos.sync_repos_main example_getenv false example_fs) example_main_trace
    (Val (Some {| SyncRepos.created := 1; SyncRepos.scanned := 1;
                  SyncRepos.errors := 0 |}))
  /\ Runs (run_sync_tool example_getenv false example_fs) example_main_trace
       (Val (Some {| SyncRepos.created := 1; SyncRepos.scanned := 1;
                     SyncRepos.errors := 0 |})).
Proof.
  split; [run_trace|].
  destruct handle_main_execution_transparent as [_ H].
  apply H. run_trace.
Defined.

(* ===================================================================== *)
(** ** A project without repository *)
(* ===================================================================== *)

(** X23. A matched project for which [get_repo_url] returns nothing, or the
    empty string, is counted as one error, and no call is made to the scan
    server for it: it is neither looked up, nor created, nor scanned. *)
Theorem project_without_repository_is_an_error (config : SyncRepos.Config)
    (org_id : string) (apps : gmap string string) c p tr res :
  Runs (SyncRepos.Sync.process_project config org_id apps c p) tr res ->
  exists r_url tr1,
    tr = Ev (SyncRepos.AzureDevOps_get_repo_url (SyncRepos.project_id p)) r_url :: tr1 /\
    forall reply,
      r_url = Val reply -> reply = None \/ reply = Some "" ->
      tr1 = [] /\
      res = Val {| SyncRepos.created := SyncRepos.created c;
                   SyncRepos.scanned := SyncRepos.scanned c;
                   SyncRepos.errors := SyncRepos.errors c + 1 |}.
Proof.
  unfold SyncRepos.Sync.process_project. intros (r_url & tr1 & -> & H).
  exists r_url, tr1. split; [reflexivity|].
  intros reply -> Hreply. simpl in H.
  destruct Hreply as [-> | ->]; simpl in H; exact H.
Qed.

Lemma project_without_repository_is_an_error_witness :
  Runs (SyncRepos.Sync.process_project example_config "42" apps_existing SyncRepos.zero
          project_alpha)
    no_url_trace (Val (SyncRepos.inc_errors SyncRepos.zero))
  /\ exists r_url tr1,
       no_url_trace =
         Ev (SyncRepos.AzureDevOps_get_repo_url (SyncRepos.project_id project_alpha)) r_url
         :: tr1.
Proof.
  split; [run_trace|].
  destruct (project_without_repository_is_an_error example_config "42" apps_existing
              SyncRepos.zero project_alpha no_url_trace
              (Val (SyncRepos.inc_errors SyncRepos.zero)))
    as (r_url & tr1 & Htr & _); [run_trace|].
  exists r_url, tr1. exact Htr.
Defined.
